(** * brightline-api: the document-conversion gateway

    A shallow embedding of [src/convert.ts] (helpers and adapters) and
    [src/server.ts] (the HTTP handlers), followed by the properties of the
    plain-text layout, the ZIP batch, the URL fetcher and the upload guards.

    Conventions.
    - Document content (decoded text, HTML) is a list of Unicode code points
      ([text]); names, paths, MIME types and header values are [string]s.
      Case folding acts on the ASCII letters, the only letters that the
      comparisons of the source involve (no other code point lower-cases to
      one of them).
    - JavaScript numbers that the layout computes with are rationals ([Q]):
      every branch of the source compares quantities that are far apart (the
      vertical cursor is at least 5.6pt away from the page-break threshold),
      so exact arithmetic takes the same branches as IEEE doubles.
    - Collaborators that are not part of the repository (the font metrics and
      serializer of pdf-lib, TextDecoder, wkhtmltopdf, unrtf, mammoth, fflate,
      fetch, the clock and random source behind temp names) are the fields of
      one record, [Externals]; handlers run in a state-and-exception monad
      over the scratch directory. *)

From Stdlib Require Import ZArith NArith QArith List String Ascii Strings.Byte Bool Lia Lqa.
From stdpp Require Import base gmap strings list pretty.

Set Default Proof Using "Type".
Set Warnings "-clear-no-such-hyp".

(* ===================================================================== *)
(** * Part I: the embedding                                               *)
(* ===================================================================== *)

(** ** JavaScript strings and the string helpers the source uses *)
Module Js.

(** A JavaScript string, as its sequence of code points. *)
Definition jstring := list N.

(** An ASCII literal as a [jstring]. *)
Definition lit (s : string) : jstring :=
  map (fun c => N.of_nat (nat_of_ascii c)) (list_ascii_of_string s).

Definition dq : N := 34%N.
Definition nl : N := 10%N.

(** Truthiness of a string: the empty string is falsy. *)
Definition truthy (s : jstring) : bool :=
  match s with [] => false | _ => true end.

(** [s || d] *)
Definition or_else (s d : jstring) : jstring := if truthy s then s else d.

(** [a === b] *)
Definition seq (a b : jstring) : bool := bool_decide (a = b).

(** The class [\s] of ECMAScript regular expressions, which is also what
    [trim] removes. *)
Definition is_space (c : N) : bool :=
  ((9 <=? c) && (c <=? 13) || (c =? 32) || (c =? 160) || (c =? 5760)
   || (8192 <=? c) && (c <=? 8202) || (c =? 8232) || (c =? 8233)
   || (c =? 8239) || (c =? 8287) || (c =? 12288) || (c =? 65279))%N.

(** The class [\w]. *)
Definition is_word (c : N) : bool :=
  ((48 <=? c) && (c <=? 57) || (65 <=? c) && (c <=? 90)
   || (97 <=? c) && (c <=? 122) || (c =? 95))%N.

Definition lower_char (c : N) : N :=
  if ((65 <=? c) && (c <=? 90))%N then (c + 32)%N else c.

(** [s.toLowerCase()] *)
Definition toLowerCase (s : jstring) : jstring := map lower_char s.

(** [s.endsWith(suffix)] *)
Definition endsWith (s suffix : jstring) : bool :=
  (length suffix <=? length s)%nat
  && seq (drop (length s - length suffix) s) suffix.

(** [s.startsWith(prefix)] *)
Definition startsWith (s prefix : jstring) : bool :=
  seq (take (length prefix) s) prefix.

(** [/<suffix>$/i.test(s)] for a literal, lower-case [suffix]. *)
Definition test_suffix_ci (suffix s : jstring) : bool :=
  endsWith (toLowerCase s) suffix.

(** [s.replace(/<suffix>$/i, repl)] for a literal, lower-case [suffix]. *)
Definition replace_suffix_ci (suffix repl s : jstring) : jstring :=
  if test_suffix_ci suffix s
  then take (length s - length suffix) s ++ repl
  else s.

(** [s.replace(/\.(html|htm)$/i, ".pdf")] *)
Definition replace_html_suffix (s : jstring) : jstring :=
  if test_suffix_ci (lit ".html") s
  then replace_suffix_ci (lit ".html") (lit ".pdf") s
  else replace_suffix_ci (lit ".htm") (lit ".pdf") s.

Fixpoint drop_while {A} (p : A -> bool) (l : list A) : list A :=
  match l with
  | [] => []
  | x :: l' => if p x then drop_while p l' else l
  end.

Fixpoint take_while {A} (p : A -> bool) (l : list A) : list A :=
  match l with
  | [] => []
  | x :: l' => if p x then x :: take_while p l' else []
  end.

(** [s.trim()] *)
Definition trim (s : jstring) : jstring :=
  rev (drop_while is_space (rev (drop_while is_space s))).

(** [s.split(";")[0]] *)
Definition before_semicolon (s : jstring) : jstring :=
  take_while (fun c => negb (c =? 59)%N) s.

Definition is_slash (c : N) : bool := (c =? 47)%N.
Definition is_dot (c : N) : bool := (c =? 46)%N.

(** The last component of a path, trailing slashes ignored, reversed. *)
Definition last_component_rev (p : jstring) : jstring :=
  take_while (fun c => negb (is_slash c)) (drop_while is_slash (rev p)).

(** [path.extname] (posix): from the last dot of the last path component to
    its end; empty when the component has no dot, when the last dot is its
    first character, and for the component [..]. *)
Definition extname (p : jstring) : jstring :=
  let comp := last_component_rev p in
  let ext_rev := take_while (fun c => negb (is_dot c)) comp in
  match drop_while (fun c => negb (is_dot c)) comp with
  | [] => []                                   (* no dot *)
  | _ :: [] => []                              (* the dot leads the component *)
  | _ :: pre =>
      if forallb is_dot pre && (length pre =? 1)%nat && (length ext_rev =? 0)%nat
      then []                                  (* the component is ".." *)
      else 46%N :: rev ext_rev
  end.

(** [s.replace(/[^\w.\-]+/g, "_")]: every maximal run of characters other
    than word characters, dots and dashes becomes one underscore. *)
Definition is_safe (c : N) : bool := is_word c || (c =? 46)%N || (c =? 45)%N.

Fixpoint sanitize_from (in_run : bool) (s : jstring) : jstring :=
  match s with
  | [] => []
  | c :: s' =>
      if is_safe c then c :: sanitize_from false s'
      else if in_run then sanitize_from true s'
      else 95%N :: sanitize_from true s'
  end.

Definition sanitize (s : jstring) : jstring := sanitize_from false s.

(** [/^https?:\/\//i.test(s)] *)
Definition is_http_url (s : jstring) : bool :=
  startsWith (toLowerCase s) (lit "http://")
  || startsWith (toLowerCase s) (lit "https://").

(** [/<html[\s>]/i.test(s)] *)
Definition html_tag_here (s : jstring) : bool :=
  match s with
  | a :: b :: c :: d :: e :: f :: _ =>
      seq [a; lower_char b; lower_char c; lower_char d; lower_char e] (lit "<html")
      && (is_space f || (f =? 62)%N)
  | _ => false
  end.

Fixpoint has_html_tag (s : jstring) : bool :=
  match s with
  | [] => false
  | _ :: s' => html_tag_here s || has_html_tag s'
  end.

(** [n.toString()] and [`${n}`] for an integer. *)
Definition show (n : Z) : jstring := lit (pretty n).

End Js.

(** ** The text adapter's own layout ([txtToPdf_toPath], convert.ts) *)
Module TxtLayout.

Import Js.

(** Decoded text: code points are what [for (const ch of w)] iterates
    over. *)
Abbreviation text := jstring.

(** [text.replace(/\r\n/g, "\n")] *)
Fixpoint replace_crlf (t : text) : text :=
  match t with
  | [] => []
  | c :: t' =>
      match t' with
      | d :: t'' =>
          if ((c =? 13) && (d =? 10))%N then 10%N :: replace_crlf t''
          else c :: replace_crlf t'
      | [] => [c]
      end
  end.

(** [s.split(/\s+/)]: the fields between maximal runs of white space; a run
    at either end leaves an empty field there, and the result is never
    empty. [in_run] says that the previous character was white space. *)
Fixpoint split_from (in_run : bool) (t : text) : list text :=
  match t with
  | [] => [[]]
  | c :: t' =>
      if is_space c then
        if in_run then split_from true t' else [] :: split_from true t'
      else
        match split_from false t' with
        | f :: fs => (c :: f) :: fs
        | [] => [[c]]
        end
  end.

Definition split_ws (t : text) : list text := split_from false t.

(** One item drawn by [page.drawText]. *)
Record drawn := Drawn {
  d_text : text; d_x : Q; d_y : Q; d_size : Q; d_gray : Q }.

Definition page := list drawn.

(** The lines collected so far and the line being filled; the inner loop
    of the source uses the same [lines] with [chunk] in place of
    [current]. *)
Record wrap_state := Wrap { lines : list text; current : text }.

(** The pages already left behind, the page being drawn on and the
    vertical cursor. *)
Record layout_state := Layout { finished : list page; cur_page : page; y : Q }.

Section Layout.

(** [font.widthOfTextAtSize] of the embedded Times Roman font. *)
Variable widthOfTextAtSize : text -> Q -> Q.

Definition pageSize : Q * Q := (612, 792)%Q.
Definition margin : Q := 50%Q.
Definition fontSize : Q := 12%Q.
Definition lineHeight : Q := (fontSize * 1.3)%Q.
Definition maxWidth : Q := (fst pageSize - margin * 2)%Q.

(** [font.widthOfTextAtSize(t, fontSize) <= maxWidth] *)
Definition fits (t : text) : bool :=
  Qle_bool (widthOfTextAtSize t fontSize) maxWidth.

(** [if (s) lines.push(s)] *)
Definition push_if (s : text) (ls : list text) : list text :=
  if truthy s then ls ++ [s] else ls.

(** Body of [for (const ch of w)]. *)
Definition chunk_step (st : wrap_state) (ch : N) : wrap_state :=
  let t2 := current st ++ [ch] in
  if fits t2 then Wrap (lines st) t2
  else Wrap (push_if (current st) (lines st)) [ch].

(** Body of [for (const w of words)]. *)
Definition wrap_step (st : wrap_state) (w : text) : wrap_state :=
  let trial := if truthy (current st) then current st ++ [32%N] ++ w else w in
  if fits trial then Wrap (lines st) trial
  else
    let ls := push_if (current st) (lines st) in
    if negb (fits w)
    then fold_left chunk_step w (Wrap ls [])
    else Wrap ls w.

Definition wrap_words (words : list text) : wrap_state :=
  fold_left wrap_step words (Wrap [] []).

(** The number of lines a state stands for, the open line included. *)
Definition line_count (st : wrap_state) : nat :=
  length (push_if (current st) (lines st)).

(** The invariant of both loops: the lines collected so far fit, and so
    does the open line. *)
Definition wrap_ok (st : wrap_state) : Prop :=
  Forall (fun l => fits l = true) (lines st)
  /\ (truthy (current st) = true -> fits (current st) = true).

(** The array [lines] when the first loop and the final push are over. *)
Definition txt_lines (t : text) : list text :=
  let st := wrap_words (split_ws (replace_crlf t)) in
  push_if (current st) (lines st).

(** [pdf.addPage(pageSize)] followed by [y = page.getHeight() - margin]. *)
Definition new_page (st : layout_state) : layout_state :=
  Layout (finished st ++ [cur_page st]) [] (snd pageSize - margin)%Q.

(** [y < margin + lineHeight] *)
Definition page_full (st : layout_state) : bool :=
  negb (Qle_bool (margin + lineHeight)%Q (y st)).

(** Body of [for (const line of lines)]. *)
Definition layout_step (st : layout_state) (line : text) : layout_state :=
  let st1 := if page_full st then new_page st else st in
  Layout (finished st1)
         (cur_page st1 ++ [Drawn line margin (y st1) fontSize 0%Q])
         (y st1 - lineHeight)%Q.

Definition layout_lines (ls : list text) : layout_state :=
  fold_left layout_step ls (Layout [] [] (snd pageSize - margin)%Q).

(** The footer, on [pdf.getPage(0)]. *)
Definition draw_footer (footer : text) (ps : list page) : list page :=
  let footerWidth := widthOfTextAtSize footer 9%Q in
  match ps with
  | [] => []
  | first :: rest =>
      (first ++ [Drawn footer ((fst pageSize - footerWidth) / 2)%Q 20%Q 9%Q 0.3%Q])
      :: rest
  end.

(** The document handed to [pdf.save()]: its pages, in order. *)
Definition txt_document (t : text) (footer : text) : list page :=
  let st := layout_lines (txt_lines t) in
  draw_footer footer (finished st ++ [cur_page st]).

(** Two facts about the font that the layout relies on. A single glyph is
    never wider than the usable width (the widest Times Roman glyph is 12pt
    wide at this size), and the measure never shrinks when text is appended
    (every glyph advance exceeds the largest kerning correction). *)
Definition glyphs_fit : Prop := forall c : N, fits [c] = true.

Definition width_monotone : Prop :=
  forall a b : text,
    (widthOfTextAtSize a fontSize <= widthOfTextAtSize (a ++ b) fontSize)%Q.

End Layout.

(** What the page loop does to the number of pages and the cursor: the
    contents of the lines play no part. *)
Definition tick (s : nat * Q) : nat * Q :=
  let s1 := if negb (Qle_bool (margin + lineHeight)%Q (snd s))
            then (S (fst s), (snd pageSize - margin)%Q) else s in
  (fst s1, (snd s1 - lineHeight)%Q).

End TxtLayout.


(** ** The service: helpers of convert.ts and handlers of server.ts *)
Module Service.
Import Js.

Definition bytes := list byte.

(** What a handler can throw: [HTTPException(status, {message})] or a plain
    [Error(message)]. *)
Inductive exn :=
| HTTPException (status : Z) (message : jstring)
| Error (message : jstring).

Inductive outcome (A : Type) :=
| Ok (a : A)
| Throw (e : exn).
Arguments Ok {A} a.
Arguments Throw {A} e.

(** Calls that leave the process, in the order they are made. *)
Inductive event :=
| PdfLibRender                     (* PDFDocument.create ... pdf.save *)
| Spawn (tool : jstring)           (* Bun.spawn of an external converter *)
| MammothConvert                   (* mammoth.convertToHtml *)
| Fetch (url : jstring)            (* fetch(url, {redirect: "follow"}) *)
| ReaderCancel.                    (* reader.cancel() *)

(** The scratch directory, the number of temp names drawn so far and the
    calls made so far. *)
Record world := World {
  scratch : gmap jstring bytes;
  drawn_names : nat;
  trace : list event }.

(** An uploaded [File]: [name], [size] and content. *)
Record File := { f_name : jstring; f_size : Z; f_bytes : bytes }.

Inductive form_value :=
| FormString (s : jstring)
| FormFile (f : File).

(** The request as the handlers read it: the [content-type] header, the
    parsed form when the body is a form ([c.req.formData()] throws
    otherwise), and the parsed JSON body when it is one. *)
Record request := {
  req_content_type : option jstring;
  req_form : option (list (jstring * form_value));
  req_json_url : option jstring   (* [body.url] when the body is JSON with a string [url] *)
}.

Record fetch_response := {
  res_ok : bool;
  res_status : Z;
  res_content_type : option jstring;
  res_content_disposition : option jstring;
  res_body : option (list bytes)   (* the chunks [reader.read()] yields *)
}.

(** An exited child process. *)
Record tool_run := {
  exit_code : Z;
  tool_stdout : jstring;
  tool_stderr : jstring;
  tool_output : bytes              (* the file the tool was told to write *)
}.

Inductive body :=
| FileBody (content : bytes)
| JsonError (error : jstring).

Record response := {
  status : Z;
  headers : list (jstring * jstring);
  resp_body : body }.

(** The collaborators outside the repository. *)
Record Externals := {
  TEMP_DIR : jstring;
  (** [`${Date.now()}-${Math.random().toString(36).slice(2)}`] of the n-th
      temp name *)
  temp_nonce : nat -> jstring;
  (** [TextDecoder("utf-8", {fatal: false}).decode], [File.text()] *)
  utf8_decode : bytes -> jstring;
  (** the bytes of a string: [Bun.write(path, string)], [new Blob([s])] *)
  utf8_encode : jstring -> bytes;
  (** [font.widthOfTextAtSize] for Times Roman *)
  widthOfTextAtSize : jstring -> Q -> Q;
  (** [pdf.save()] *)
  pdf_save : list TxtLayout.page -> bytes;
  (** wkhtmltopdf on the bytes of its input file *)
  wkhtmltopdf : bytes -> tool_run;
  (** unrtf --html on the bytes of its input file *)
  unrtf : bytes -> tool_run;
  mammoth_convertToHtml : bytes -> outcome jstring;
  (** [Object.entries(unzipSync(bytes))], in iteration order *)
  unzipSync : bytes -> outcome (list (jstring * bytes));
  zipSync : gmap jstring bytes -> bytes;
  fetch : jstring -> outcome fetch_response;
  (** [path.basename(p)] and [path.basename(p, ext)]; they only name
      artifacts and downloads *)
  basename : jstring -> jstring;
  basename_ext : jstring -> jstring -> jstring;
  (** capture 1 of [/filename\*?=(?:UTF-8''|")?([^";]+)/i.exec(cd)] *)
  header_filename : jstring -> option jstring;
  (** [new URL(u).pathname]; [None] when the constructor throws *)
  url_pathname : jstring -> option jstring;
  (** [None] when it throws URIError *)
  decodeURIComponent : jstring -> option jstring
}.

(** *** The monad of handlers: state and exceptions *)
Definition M (A : Type) : Type := world -> outcome A * world.

Definition ret {A} (a : A) : M A := fun w => (Ok a, w).
Definition throw {A} (e : exn) : M A := fun w => (Throw e, w).
Definition bind {A B} (m : M A) (k : A -> M B) : M B :=
  fun w => match m w with
           | (Ok a, w') => k a w'
           | (Throw e, w') => (Throw e, w')
           end.

Notation "'let*' x := m 'in' k" := (bind m (fun x => k))
  (at level 10, x name, m at level 100, k at level 200).
Notation "m ;; k" := (bind m (fun _ => k))
  (at level 100, k at level 200, right associativity).

Definition lift {A} (o : outcome A) : M A := fun w => (o, w).

Definition log (e : event) : M unit :=
  fun w => (Ok tt, World (scratch w) (drawn_names w) (trace w ++ [e])).

(** [Bun.write(path, data)], and a tool or a writer leaving a file. *)
Definition write_file (path : jstring) (data : bytes) : M unit :=
  fun w => (Ok tt, World (<[path := data]> (scratch w)) (drawn_names w) (trace w)).

(** [Bun.file(path).arrayBuffer()] and the other reads of a file. *)
Definition read_file (path : jstring) : M bytes :=
  fun w => match scratch w !! path with
           | Some data => (Ok data, w)
           | None => (Throw (Error (lit "ENOENT: no such file or directory")), w)
           end.

(** [MAX_FILE_BYTES] *)
Definition MAX_FILE_BYTES : Z := 50 * 1024 * 1024.

Definition BASE_CSS : jstring :=
  [nl] ++ lit "  body{font-family:" ++ [dq] ++ lit "Liberation Serif" ++ [dq]
  ++ lit "," ++ [dq] ++ lit "DejaVu Serif" ++ [dq]
  ++ lit ",serif;font-size:12pt;line-height:1.35}" ++ [nl]
  ++ lit "  h1,h2,h3{margin:0.6em 0 0.3em} p,li{margin:0.3em 0}" ++ [nl]
  ++ lit "  table{border-collapse:collapse;width:100%} td,th{border:1px solid #ccc;padding:4px}"
  ++ [nl].

Definition meta_charset : jstring :=
  lit "<meta charset=" ++ [dq] ++ lit "utf-8" ++ [dq] ++ lit ">".

(** The document shell that the RTF and DOCX routes put around converter
    output. *)
Definition styled_document (inner : jstring) : jstring :=
  lit "<!doctype html><html><head>" ++ meta_charset ++ lit "<style>" ++ BASE_CSS
  ++ lit "</style></head><body>" ++ inner ++ lit "</body></html>".

Definition normalizeHtmlWrapper (html : jstring) : jstring :=
  if has_html_tag html then html
  else lit "<!doctype html><html><head>" ++ meta_charset ++ lit "</head><body>"
       ++ html ++ lit "</body></html>".

(** *** Limits *)
Definition enforceFileLimit (file : File) : M unit :=
  if (MAX_FILE_BYTES <? f_size file)%Z
  then throw (HTTPException 413 (lit "File too large. Max size is 50MB."))
  else ret tt.

Definition guessExtFromContentType (ct : option jstring) : option jstring :=
  match ct with
  | None => None
  | Some ct =>
      if negb (truthy ct) then None else
      let t := toLowerCase (trim (before_semicolon ct)) in
      if seq t (lit "application/pdf") then Some (lit ".pdf")
      else if seq t (lit "application/vnd.openxmlformats-officedocument.wordprocessingml.document")
      then Some (lit ".docx")
      else if seq t (lit "text/plain") then Some (lit ".txt")
      else if seq t (lit "text/html") then Some (lit ".html")
      else if seq t (lit "application/rtf") then Some (lit ".rtf")
      else if seq t (lit "application/zip") then Some (lit ".zip")
      else if seq t (lit "application/x-zip-compressed") then Some (lit ".zip")
      else None
  end.

(** The number of bytes in a sequence of chunks. *)
Fixpoint total_bytes (chunks : list bytes) : Z :=
  match chunks with
  | [] => 0%Z
  | value :: rest => (Z.of_nat (length value) + total_bytes rest)%Z
  end.

Section WithExternals.

Variable E : Externals.

Definition join_temp (name : jstring) : jstring := TEMP_DIR E ++ lit "/" ++ name.

(** Draws the time-and-random prefix of the next temp name. *)
Definition fresh : M jstring :=
  fun w => (Ok (temp_nonce E (drawn_names w)),
            World (scratch w) (S (drawn_names w)) (trace w)).

Definition enforceStringLimit (name text : jstring) : M unit :=
  let size := Z.of_nat (length (utf8_encode E text)) in
  if (MAX_FILE_BYTES <? size)%Z
  then throw (HTTPException 413 (name ++ lit " too large. Max size is 50MB."))
  else ret tt.

Definition content_disposition (filename : jstring) : jstring :=
  lit "attachment; filename=" ++ [dq] ++ filename ++ [dq].

(** The headers that [streamFile] sends with the file [f]. *)
Definition stream_headers (filename mime : jstring) (f : bytes)
  : list (jstring * jstring) :=
  [(lit "Content-Type", mime);
   (lit "Content-Disposition", content_disposition filename);
   (lit "Content-Length", show (Z.of_nat (length f)));
   (lit "Cache-Control", lit "no-store")].

Definition streamFile (path filename mime : jstring) : M response :=
  let* f := read_file path in
  ret {| status := 200;
         headers := stream_headers filename mime f;
         resp_body := FileBody f |}.

(** *** Adapters *)
Definition tool_failure (tool : jstring) (r : tool_run) (with_stdout : bool) : exn :=
  Error (tool ++ lit " failed (" ++ show (exit_code r) ++ lit ")" ++ [nl]
         ++ (if with_stdout then lit "STDOUT:" ++ [nl] ++ tool_stdout r ++ [nl] else [])
         ++ lit "STDERR:" ++ [nl] ++ tool_stderr r).

Definition htmlToPdfWithWK_toPath (html outNameBase : jstring) : M jstring :=
  let* n1 := fresh in
  let htmlPath := join_temp (n1 ++ lit "-" ++ outNameBase ++ lit ".html") in
  let* n2 := fresh in
  let pdfPath := join_temp (n2 ++ lit "-" ++ outNameBase ++ lit ".pdf") in
  write_file htmlPath (utf8_encode E html);;
  log (Spawn (lit "wkhtmltopdf"));;
  let* input := read_file htmlPath in
  let r := wkhtmltopdf E input in
  if negb (exit_code r =? 0)%Z
  then throw (tool_failure (lit "wkhtmltopdf") r true)
  else write_file pdfPath (tool_output r);; ret pdfPath.

Definition rtfToHtmlWithUnrtf (rtfBytes : bytes) : M jstring :=
  let* n := fresh in
  let rtfPath := join_temp (n ++ lit ".rtf") in
  write_file rtfPath rtfBytes;;
  log (Spawn (lit "unrtf"));;
  let* input := read_file rtfPath in
  let r := unrtf E input in
  if negb (exit_code r =? 0)%Z
  then throw (tool_failure (lit "unrtf") r false)
  else ret (tool_stdout r).

(** The pages that [txtToPdf_toPath] has drawn when it calls [pdf.save()]. *)
Definition txt_pages (data : bytes) (filename : jstring) : list TxtLayout.page :=
  let text := utf8_decode E data in
  TxtLayout.txt_document (widthOfTextAtSize E) text (basename E filename).

Definition txtToPdf_toPath (data : bytes) (filename : jstring) : M jstring :=
  log PdfLibRender;;
  let pdfBytes := pdf_save E (txt_pages data filename) in
  let* n := fresh in
  let outPath :=
    join_temp (n ++ lit "-" ++ basename_ext E filename (lit ".txt") ++ lit ".pdf") in
  write_file outPath pdfBytes;;
  ret outPath.

Definition mammoth (buffer : bytes) : M jstring :=
  log MammothConvert;; lift (mammoth_convertToHtml E buffer).

(** *** Request helpers *)
Definition form_get (form : list (jstring * form_value)) (key : jstring)
  : option form_value :=
  snd <$> List.find (fun kv => seq (fst kv) key) form.

Definition formData (c : request) : M (list (jstring * form_value)) :=
  match req_form c with
  | Some form => ret form
  | None => throw (Error (lit "Request body is not form data."))
  end.

Definition readFormFile (c : request) (key : jstring) : M File :=
  let* form := formData c in
  match form_get form key with
  | Some (FormFile f) => ret f
  | _ => throw (HTTPException 400
           (lit "Expected multipart/form-data with a '" ++ key ++ lit "' file field."))
  end.

(** *** URL utilities *)
Definition getUrlFromRequest (c : request) : M jstring :=
  let ct := default [] (req_content_type c) in
  let bad := HTTPException 400
    (lit "Provide a URL via JSON { " ++ [dq] ++ lit "url" ++ [dq] ++ lit ": " ++ [dq]
     ++ lit "<https://...>" ++ [dq] ++ lit " } or form-data field " ++ [dq]
     ++ lit "url" ++ [dq] ++ lit ".") in
  if startsWith ct (lit "application/json") then
    match req_json_url c with
    | Some u => if truthy u then ret u else throw bad
    | None => throw bad
    end
  else if startsWith ct (lit "multipart/form-data") then
    let* form := formData c in
    match form_get form (lit "url") with
    | Some (FormString u) => ret u
    | _ => throw bad
    end
  else throw bad.

(** The extension of the URL's path: the tail of [extFromUrlOrDisposition]. *)
Definition extFromUrl (urlStr : jstring) : option jstring :=
  match url_pathname E urlStr with
  | None => None                               (* caught *)
  | Some pathname =>
      let e := extname (or_else pathname []) in
      if truthy e then Some (toLowerCase e) else None
  end.

(** [cd && regex.exec(cd)?.[1]] *)
Definition disposition_filename (cd : option jstring) : option jstring :=
  match cd with
  | Some cd =>
      if truthy cd then
        match header_filename E cd with
        | Some m1 => if truthy m1 then Some m1 else None
        | None => None
        end
      else None
  | None => None
  end.

Definition extFromUrlOrDisposition (urlStr : jstring) (cd : option jstring)
  : option jstring :=
  match disposition_filename cd with
  | Some m1 =>
      match decodeURIComponent E (filter (fun c => c <> dq) m1) with
      | None => None                           (* caught *)
      | Some n =>
          let e := extname n in
          if truthy e then Some (toLowerCase e) else extFromUrl urlStr
      end
  | None => extFromUrl urlStr
  end.

(** The extension that [downloadUrlToTemp] settles on. *)
Definition resolved_ext (urlStr : jstring) (res : fetch_response) : jstring :=
  let extByCT := guessExtFromContentType (res_content_type res) in
  let extByURL := extFromUrlOrDisposition urlStr (res_content_disposition res) in
  toLowerCase (default (default [] extByCT) extByURL).

(** The name that [downloadUrlToTemp] gives the download; the two
    constructors it calls can throw. *)
Definition resolved_filename (urlStr : jstring) (res : fetch_response)
  : outcome jstring :=
  let ext := resolved_ext urlStr res in
  let named (baseName : jstring) : outcome jstring :=
    match decodeURIComponent E baseName with
    | None => Throw (Error (lit "URI malformed"))
    | Some decoded =>
        let safeBase := or_else (sanitize decoded) (lit "download") in
        Ok (if truthy ext
            then if endsWith safeBase ext then safeBase else safeBase ++ ext
            else safeBase)
    end in
  match disposition_filename (res_content_disposition res) with
  | Some m1 => named m1
  | None =>
      match url_pathname E urlStr with
      | None => Throw (Error (lit "Invalid URL"))
      | Some pathname =>
          named (or_else (basename E (or_else pathname [])) (lit "download"))
      end
  end.

(** The [while (true)] loop over [reader.read()]: [received] is the running
    count, [written] what the writer has been given. *)
Fixpoint pump (maxBytes : Z) (tmpPath : jstring) (chunks : list bytes)
    (received : Z) (written : bytes) : M unit :=
  match chunks with
  | [] => write_file tmpPath written           (* [w.end()] after the loop *)
  | value :: rest =>
      let received := (received + Z.of_nat (length value))%Z in
      if (maxBytes <? received)%Z then
        log ReaderCancel;;
        write_file tmpPath written;;           (* [w.end()] *)
        throw (HTTPException 413 (lit "Remote file exceeds 50MB limit."))
      else pump maxBytes tmpPath rest received (written ++ value)
  end.

Definition downloadUrlToTemp (urlStr : jstring) (maxBytes : Z)
  : M (jstring * jstring * option jstring) :=
  log (Fetch urlStr);;
  let* res := lift (fetch E urlStr) in
  if negb (res_ok res) then
    throw (HTTPException 502
      (lit "Failed to fetch URL (status " ++ show (res_status res) ++ lit ")."))
  else
    let ct := res_content_type res in
    let* filename := lift (resolved_filename urlStr res) in
    let* n := fresh in
    let tmpPath := join_temp (n ++ lit "-" ++ filename) in
    match res_body res with
    | None => throw (HTTPException 502 (lit "No response body from URL."))
    | Some chunks =>
        pump maxBytes tmpPath chunks 0 [];;
        ret (tmpPath, filename, ct)
    end.

(** *** Routes *)
Definition convert_txt (c : request) : M response :=
  let* file := readFormFile c (lit "file") in
  enforceFileLimit file;;
  let name := or_else (f_name file) (lit "document.txt") in
  if negb (test_suffix_ci (lit ".txt") name)
  then throw (HTTPException 400 (lit "Please upload a .txt file."))
  else
    let* pdfPath := txtToPdf_toPath (f_bytes file) name in
    streamFile pdfPath (basename_ext E name (lit ".txt") ++ lit ".pdf")
               (lit "application/pdf").

Definition convert_rtf (c : request) : M response :=
  let* file := readFormFile c (lit "file") in
  enforceFileLimit file;;
  let name := or_else (f_name file) (lit "document.rtf") in
  if negb (test_suffix_ci (lit ".rtf") name)
  then throw (HTTPException 400 (lit "Please upload a .rtf file."))
  else
    let* rawHtml := rtfToHtmlWithUnrtf (f_bytes file) in
    let htmlDoc := styled_document rawHtml in
    let* pdfPath := htmlToPdfWithWK_toPath htmlDoc (basename_ext E name (lit ".rtf")) in
    streamFile pdfPath (basename_ext E name (lit ".rtf") ++ lit ".pdf")
               (lit "application/pdf").

Definition convert_docx (c : request) : M response :=
  let* file := readFormFile c (lit "file") in
  enforceFileLimit file;;
  let name := or_else (f_name file) (lit "document.docx") in
  if negb (test_suffix_ci (lit ".docx") name)
  then throw (HTTPException 400 (lit "Please upload a .docx file."))
  else
    let* html := mammoth (f_bytes file) in
    let htmlDoc := styled_document html in
    let* pdfPath := htmlToPdfWithWK_toPath htmlDoc (basename_ext E name (lit ".docx")) in
    streamFile pdfPath (basename_ext E name (lit ".docx") ++ lit ".pdf")
               (lit "application/pdf").

(** [/\.(html?|xhtml)$/i.test(name)] *)
Definition html_name (name : jstring) : bool :=
  test_suffix_ci (lit ".htm") name || test_suffix_ci (lit ".html") name
  || test_suffix_ci (lit ".xhtml") name.

(** The HTML that the route hands to the renderer, before wrapping. *)
Definition html_source (form : list (jstring * form_value)) : M jstring :=
  let htmlField := form_get form (lit "html") in
  let maybeFile := form_get form (lit "file") in
  match maybeFile with
  | Some (FormFile maybeFile) =>
      enforceFileLimit maybeFile;;
      let name := or_else (f_name maybeFile) (lit "document.html") in
      if negb (html_name name)
      then throw (HTTPException 400
             (lit "Please upload a .html/.htm file or provide an " ++ [dq] ++ lit "html"
              ++ [dq] ++ lit " field."))
      else ret (utf8_decode E (f_bytes maybeFile))
  | _ =>
      match htmlField with
      | Some (FormString htmlField) =>
          enforceStringLimit (lit "HTML content") htmlField;;
          ret htmlField
      | _ => throw (HTTPException 400
               (lit "Provide either file=*.html or a text field " ++ [dq] ++ lit "html"
                ++ [dq] ++ lit "."))
      end
  end.

Definition convert_html (c : request) : M response :=
  let* form := formData c in
  let* html := html_source form in
  let wrapped := normalizeHtmlWrapper html in
  let* pdfPath := htmlToPdfWithWK_toPath wrapped (lit "html-upload") in
  streamFile pdfPath (lit "document.pdf") (lit "application/pdf").

(** Body of [for (const [path, data] of entries.entries())]. *)
Definition batch_step (out : gmap jstring bytes) (entry : jstring * bytes)
  : M (gmap jstring bytes) :=
  let '(path, data) := entry in
  let ext := toLowerCase (extname path) in
  let buffer := data in
  if seq ext (lit ".txt") then
    let* pdfPath := txtToPdf_toPath data (basename E path) in
    let* pdfBytes := read_file pdfPath in
    ret (<[replace_suffix_ci (lit ".txt") (lit ".pdf") path := pdfBytes]> out)
  else if seq ext (lit ".docx") then
    let* html := mammoth buffer in
    let htmlDoc := styled_document html in
    let* pdfPath := htmlToPdfWithWK_toPath htmlDoc (basename E path) in
    let* pdfBytes := read_file pdfPath in
    ret (<[replace_suffix_ci (lit ".docx") (lit ".pdf") path := pdfBytes]> out)
  else if seq ext (lit ".rtf") then
    let* rawHtml := rtfToHtmlWithUnrtf data in
    let htmlDoc := styled_document rawHtml in
    let* pdfPath := htmlToPdfWithWK_toPath htmlDoc (basename E path) in
    let* pdfBytes := read_file pdfPath in
    ret (<[replace_suffix_ci (lit ".rtf") (lit ".pdf") path := pdfBytes]> out)
  else if seq ext (lit ".html") || seq ext (lit ".htm") then
    let wrapped := normalizeHtmlWrapper (utf8_decode E data) in
    let* pdfPath := htmlToPdfWithWK_toPath wrapped (basename E path) in
    let* pdfBytes := read_file pdfPath in
    ret (<[replace_html_suffix path := pdfBytes]> out)
  else ret out.                                (* ignore others *)

Fixpoint batch_from (out : gmap jstring bytes) (entries : list (jstring * bytes))
  : M (gmap jstring bytes) :=
  match entries with
  | [] => ret out
  | entry :: rest => let* out' := batch_step out entry in batch_from out' rest
  end.

(** The map [out] when the loop of the ZIP route is over. *)
Definition run_batch (entries : list (jstring * bytes)) : M (gmap jstring bytes) :=
  batch_from ∅ entries.

Definition zipFromMap_toPath (files : gmap jstring bytes) (outBase : jstring)
  : M jstring :=
  let zipped := zipSync E files in
  let* n := fresh in
  let outPath := join_temp (n ++ lit "-" ++ outBase ++ lit ".zip") in
  write_file outPath zipped;;
  ret outPath.

Definition convert_zip (c : request) : M response :=
  let* file := readFormFile c (lit "file") in
  enforceFileLimit file;;
  let name := or_else (f_name file) (lit "archive.zip") in
  if negb (test_suffix_ci (lit ".zip") name)
  then throw (HTTPException 400 (lit "Please upload a .zip file."))
  else
    let* entries := lift (unzipSync E (f_bytes file)) in
    let* out := run_batch entries in
    let* outZipPath :=
      zipFromMap_toPath out (basename_ext E name (lit ".zip") ++ lit "-pdfs") in
    streamFile outZipPath (basename E outZipPath) (lit "application/zip").

(** [contentType && guessExtFromContentType(contentType) === e] *)
Definition ct_says (contentType : option jstring) (e : jstring) : bool :=
  match contentType with
  | Some ct => truthy ct && bool_decide (guessExtFromContentType (Some ct) = Some e)
  | None => false
  end.

(** The URL route from [const ext = ...] on: what it does with a finished
    download. *)
Definition url_dispatch (tmpPath filename : jstring) (contentType : option jstring)
  : M response :=
  let ext := toLowerCase (or_else (extname filename) []) in
  if seq ext (lit ".pdf") || ct_says contentType (lit ".pdf") then
    streamFile tmpPath filename (lit "application/pdf")
  else if seq ext (lit ".txt") || ct_says contentType (lit ".txt") then
    let* data := read_file tmpPath in
    let* pdfPath := txtToPdf_toPath data filename in
    streamFile pdfPath (basename_ext E filename (lit ".txt") ++ lit ".pdf")
               (lit "application/pdf")
  else if seq ext (lit ".docx") || ct_says contentType (lit ".docx") then
    let* buffer := read_file tmpPath in
    let* html := mammoth buffer in
    let htmlDoc := styled_document html in
    let* pdfPath :=
      htmlToPdfWithWK_toPath htmlDoc (basename_ext E filename (lit ".docx")) in
    streamFile pdfPath (basename_ext E filename (lit ".docx") ++ lit ".pdf")
               (lit "application/pdf")
  else if seq ext (lit ".rtf") || ct_says contentType (lit ".rtf") then
    let* data := read_file tmpPath in
    let* rawHtml := rtfToHtmlWithUnrtf data in
    let htmlDoc := styled_document rawHtml in
    let* pdfPath :=
      htmlToPdfWithWK_toPath htmlDoc (basename_ext E filename (lit ".rtf")) in
    streamFile pdfPath (basename_ext E filename (lit ".rtf") ++ lit ".pdf")
               (lit "application/pdf")
  else if seq ext (lit ".html") || seq ext (lit ".htm")
          || ct_says contentType (lit ".html") then
    let* data := read_file tmpPath in
    let htmlText := utf8_decode E data in
    let wrapped := normalizeHtmlWrapper htmlText in
    let* pdfPath :=
      htmlToPdfWithWK_toPath wrapped
                             (basename_ext E filename (or_else ext (lit ".html"))) in
    streamFile pdfPath
               (basename_ext E filename (or_else ext (lit ".html")) ++ lit ".pdf")
               (lit "application/pdf")
  else
    (* the ZIP branch of the source is commented out *)
    throw (HTTPException 415
      (lit "Unsupported remote type. Allowed: pdf, docx, txt, rtf, html, zip.")).

Definition convert_url (c : request) : M response :=
  let* urlStr := getUrlFromRequest c in
  if negb (is_http_url urlStr)
  then throw (HTTPException 400 (lit "Only http(s) URLs are supported."))
  else
    let* dl := downloadUrlToTemp urlStr MAX_FILE_BYTES in
    let '(tmpPath, filename, contentType) := dl in
    url_dispatch tmpPath filename contentType.

(** *** [app.onError] and the handler as the framework runs it *)
Definition onError (err : exn) : response :=
  match err with
  | HTTPException st message =>
      {| status := st; headers := []; resp_body := JsonError message |}
  | Error message =>
      {| status := 500; headers := [];
         resp_body := JsonError (or_else message (lit "Internal error")) |}
  end.

Definition serve (handler : request -> M response) (c : request) (w : world)
  : response * world :=
  match handler c w with
  | (Ok r, w') => (r, w')
  | (Throw e, w') => (onError e, w')
  end.

(** *** Views of the URL route used to state its properties *)

(** The temp path of a download started in world [w]. *)
Definition download_path (filename : jstring) (w : world) : jstring :=
  join_temp (temp_nonce E (drawn_names w) ++ lit "-" ++ filename).

(** The request carries [urlStr], in its JSON body or in its form. *)
Definition carries_url (c : request) (urlStr : jstring) : Prop :=
  forall w, getUrlFromRequest c w = (Ok urlStr, w).

(** *** Views of the batch used to state its properties *)

(** The extensions that the batch converts. *)
Definition supported_ext (ext : jstring) : bool :=
  seq ext (lit ".txt") || seq ext (lit ".docx") || seq ext (lit ".rtf")
  || seq ext (lit ".html") || seq ext (lit ".htm").

Definition supported (path : jstring) : bool :=
  supported_ext (toLowerCase (extname path)).

(** The key under which the batch stores an entry; [None] for an entry it
    ignores. *)
Definition entry_target (path : jstring) : option jstring :=
  let ext := toLowerCase (extname path) in
  if seq ext (lit ".txt") then Some (replace_suffix_ci (lit ".txt") (lit ".pdf") path)
  else if seq ext (lit ".docx") then Some (replace_suffix_ci (lit ".docx") (lit ".pdf") path)
  else if seq ext (lit ".rtf") then Some (replace_suffix_ci (lit ".rtf") (lit ".pdf") path)
  else if seq ext (lit ".html") || seq ext (lit ".htm") then Some (replace_html_suffix path)
  else None.

(** The PDF that wkhtmltopdf makes of a document, when it exits with 0. *)
Definition rendered (html : jstring) : option bytes :=
  let r := wkhtmltopdf E (utf8_encode E html) in
  if (exit_code r =? 0)%Z then Some (tool_output r) else None.

(** The PDF of an entry, when its adapter chain succeeds. *)
Definition entry_pdf (path : jstring) (data : bytes) : option bytes :=
  let ext := toLowerCase (extname path) in
  if seq ext (lit ".txt") then Some (pdf_save E (txt_pages data (basename E path)))
  else if seq ext (lit ".docx") then
    match mammoth_convertToHtml E data with
    | Ok html => rendered (styled_document html)
    | Throw _ => None
    end
  else if seq ext (lit ".rtf") then
    let r := unrtf E data in
    if (exit_code r =? 0)%Z then rendered (styled_document (tool_stdout r)) else None
  else if seq ext (lit ".html") || seq ext (lit ".htm") then
    rendered (normalizeHtmlWrapper (utf8_decode E data))
  else None.

(** The keys of the entries of an archive that the batch converts. *)
Definition targets (entries : list (jstring * bytes)) : list jstring :=
  omap (fun entry => entry_target (fst entry)) entries.

End WithExternals.

End Service.

(** ** Stand-ins for the collaborators

    Simple total functions in place of the external tools, as a test
    would stub them; the examples below run the handlers on them. *)
Module Stub.
Import Js Service.

Definition decode (b : bytes) : jstring := map Byte.to_N b.

Definition encode (s : jstring) : bytes :=
  map (fun c => default "?"%byte (Byte.of_N c)) s.

(** Half the font size for every character. *)
Definition width (t : jstring) (size : Q) : Q :=
  (inject_Z (Z.of_nat (length t)) * (size / 2))%Q.

(** The texts drawn, page after page. *)
Definition save (pages : list TxtLayout.page) : bytes :=
  encode (concat (map (fun pg => concat (map TxtLayout.d_text pg)) pages)).

Definition ran (out : jstring) (file : bytes) : tool_run :=
  {| exit_code := 0; tool_stdout := out; tool_stderr := []; tool_output := file |}.

Definition last_component (p : jstring) : jstring := rev (last_component_rev p).

(** [remote url] is the world outside: what [fetch] answers. *)
Definition externals (remote : jstring -> outcome fetch_response) : Externals :=
  {| TEMP_DIR := lit "/tmp";
     temp_nonce := fun n => show (Z.of_nat n);
     utf8_decode := decode;
     utf8_encode := encode;
     widthOfTextAtSize := width;
     pdf_save := save;
     wkhtmltopdf := fun input => ran [] input;
     unrtf := fun input => ran (decode input) [];
     mammoth_convertToHtml := fun buffer => Ok (decode buffer);
     unzipSync := fun _ => Ok [];
     zipSync := fun files => concat (snd <$> map_to_list files);
     fetch := remote;
     basename := last_component;
     basename_ext := fun p ext =>
       let b := last_component p in
       if endsWith b ext then take (length b - length ext) b else b;
     header_filename := fun _ => None;
     url_pathname := fun u => Some (drop_while (fun c => negb (is_slash c)) (drop 8 u));
     decodeURIComponent := fun s => Some s |}.

Definition offline : Externals :=
  externals (fun _ => Throw (Error (lit "fetch failed"))).

(** A server that answers every URL with the same response. *)
Definition serving (content_type : option jstring) (chunks : list bytes) : Externals :=
  externals (fun _ =>
    Ok {| res_ok := true; res_status := 200;
          res_content_type := content_type;
          res_content_disposition := None;
          res_body := Some chunks |}).

Definition empty_world : world := World ∅ 0 [].

Definition upload (name : jstring) (size : Z) (content : bytes) : request :=
  {| req_content_type := Some (lit "multipart/form-data; boundary=x");
     req_form := Some [(lit "file", FormFile {| f_name := name; f_size := size; f_bytes := content |})];
     req_json_url := None |}.

Definition url_request (url : jstring) : request :=
  {| req_content_type := Some (lit "application/json");
     req_form := None;
     req_json_url := Some url |}.

End Stub.

(** ** Views of the layout and the batch used to state further properties *)
Module Views.
Import Js TxtLayout Service.

(** The pages that [n] lines take: 44 lines to a page, and one page when
    there is no line. *)
Definition pages_for (n : nat) : nat :=
  match n with
  | O => 1%nat
  | S m => S (m / 44)
  end.

(** A line of the body as the page loop draws it: at the left margin, in
    black, at the body size, with its base line between the bottom margin
    plus one line and the top margin. *)
Definition body_item (it : drawn) : Prop :=
  d_x it = margin /\ d_size it = fontSize /\ d_gray it = 0%Q
  /\ (margin + lineHeight <= d_y it)%Q /\ (d_y it <= snd pageSize - margin)%Q.

(** The footer as [firstPage.drawText(footer, ...)] draws it. *)
Definition footer_item (width : text -> Q -> Q) (footer : text) : drawn :=
  Drawn footer ((fst pageSize - width footer 9%Q) / 2)%Q 20%Q 9%Q 0.3%Q.

Definition not_space (c : N) : bool := negb (is_space c).

(** The six extensions of the content-type table. *)
Definition table_exts : list jstring :=
  [lit ".pdf"; lit ".docx"; lit ".txt"; lit ".html"; lit ".rtf"; lit ".zip"].

(** The shape of a usable extension: lower case, led by a dot, no slash. *)
Definition ext_shaped (e : jstring) : Prop :=
  (exists e', e = 46%N :: e') /\ toLowerCase e = e /\ Forall (fun c => c <> 47%N) e.

Section WithExternals.

Variable E : Externals.


End WithExternals.

End Views.

(** ** Stand-ins for converters that fail *)
Module Faulty.
Import Js Service.

Definition failed (code : Z) (err : jstring) : tool_run :=
  {| exit_code := code; tool_stdout := []; tool_stderr := err; tool_output := [] |}.

(** As [Stub.offline], with a renderer that exits with 1 and an unrtf that
    exits with 3. *)
Definition externals : Externals :=
  {| TEMP_DIR := TEMP_DIR Stub.offline;
     temp_nonce := temp_nonce Stub.offline;
     utf8_decode := utf8_decode Stub.offline;
     utf8_encode := utf8_encode Stub.offline;
     widthOfTextAtSize := widthOfTextAtSize Stub.offline;
     pdf_save := pdf_save Stub.offline;
     wkhtmltopdf := fun _ => failed 1 (lit "cannot render");
     unrtf := fun _ => failed 3 (lit "not RTF");
     mammoth_convertToHtml := mammoth_convertToHtml Stub.offline;
     unzipSync := fun _ => Throw (Error (lit "invalid zip data"));
     zipSync := zipSync Stub.offline;
     fetch := fetch Stub.offline;
     basename := basename Stub.offline;
     basename_ext := basename_ext Stub.offline;
     header_filename := header_filename Stub.offline;
     url_pathname := url_pathname Stub.offline;
     decodeURIComponent := decodeURIComponent Stub.offline |}.


End Faulty.

(** ** Startup and health ([hasWK], [hasUnrtf], [getWKVersion],
    [getUnrtfVersion], [assertStartupDependencies], [GET /health]) *)
Module Startup.
Import Js Service.

(** [opts] of [assertStartupDependencies]; an absent property is [None]. *)
Record startup_opts := {
  requireWK : option bool;
  requireUnrtf : option bool }.

Record dep_report := {
  present : bool;
  version : option jstring;
  dep_path : jstring }.

(** The body of [GET /health], without the [runtime] block and the
    [timestamp], which are read from the process and the clock. *)
Record health_report := {
  ok : bool;
  dep_wkhtmltopdf : dep_report;
  dep_unrtf : dep_report;
  maxUploadBytes : Z }.

Section Probes.

(** [process.env.WKHTMLTOPDF_PATH] and [process.env.UNRTF_PATH]. *)
Variables WKHTMLTOPDF_PATH UNRTF_PATH : option jstring.

(** [Bun.spawn([bin, "--version"], ...)] run to its end; [None] when
    spawning throws. The tools do not come and go between two probes. *)
Variable spawn_version : jstring -> option tool_run.

(** [process.env.X || name] *)
Definition tool_bin (env : option jstring) (name : jstring) : jstring :=
  or_else (default [] env) name.

Definition probe_ok (bin : jstring) : bool :=
  match spawn_version bin with
  | Some p => (exit_code p =? 0)%Z
  | None => false                              (* caught *)
  end.

(** [out.split("\n")[0].trim()] *)
Definition first_line_trimmed (out : jstring) : jstring :=
  trim (take_while (fun c => negb (c =? 10)%N) out).

Definition probe_version (bin : jstring) : option jstring :=
  match spawn_version bin with
  | Some p => if (exit_code p =? 0)%Z then Some (first_line_trimmed (tool_stdout p))
              else None
  | None => None                               (* caught *)
  end.

Definition hasWK : bool := probe_ok (tool_bin WKHTMLTOPDF_PATH (lit "wkhtmltopdf")).
Definition hasUnrtf : bool := probe_ok (tool_bin UNRTF_PATH (lit "unrtf")).
Definition getWKVersion : option jstring :=
  probe_version (tool_bin WKHTMLTOPDF_PATH (lit "wkhtmltopdf")).
Definition getUnrtfVersion : option jstring :=
  probe_version (tool_bin UNRTF_PATH (lit "unrtf")).

Definition default_opts : startup_opts :=
  {| requireWK := Some true; requireUnrtf := Some true |}.

(** [opts.requireWK !== false] *)
Definition wanted (flag : option bool) : bool :=
  negb (bool_decide (flag = Some false)).

Definition assertStartupDependencies (opts : option startup_opts) : outcome unit :=
  let opts := default default_opts opts in
  let wantWK := wanted (requireWK opts) in
  let wantUN := wanted (requireUnrtf opts) in
  if wantWK && negb hasWK then
    Throw (Error (lit "Missing dependency: wkhtmltopdf not found in PATH. "
                  ++ lit "Install it (e.g., apt-get install wkhtmltopdf) or set WKHTMLTOPDF_PATH."))
  else if wantUN && negb hasUnrtf then
    Throw (Error (lit "Missing dependency: unrtf not found in PATH. "
                  ++ lit "Install it (e.g., apt-get install unrtf) or set UNRTF_PATH."))
  else Ok tt.

Definition health : health_report :=
  let wkOk := hasWK in
  let unOk := hasUnrtf in
  let wkVer := getWKVersion in
  let unVer := getUnrtfVersion in
  let healthy := wkOk && unOk in
  {| ok := healthy;
     dep_wkhtmltopdf :=
       {| present := wkOk; version := wkVer;
          dep_path := tool_bin WKHTMLTOPDF_PATH (lit "wkhtmltopdf") |};
     dep_unrtf :=
       {| present := unOk; version := unVer;
          dep_path := tool_bin UNRTF_PATH (lit "unrtf") |};
     maxUploadBytes := MAX_FILE_BYTES |}.

End Probes.

End Startup.

(* ===================================================================== *)
(** * Part II: properties                                                 *)
(* ===================================================================== *)

(** ** Strings and paths *)
Module JsFacts.
Import Js.

Lemma seq_true (a b : jstring) : seq a b = true <-> a = b.
Proof. unfold seq. apply bool_decide_eq_true. Qed.

Lemma seq_false (a b : jstring) : seq a b = false <-> a <> b.
Proof. unfold seq. apply bool_decide_eq_false. Qed.

Lemma take_drop_while {A} (p : A -> bool) (l : list A) :
  l = take_while p l ++ drop_while p l.
Proof.
  induction l as [|x l IH]; [reflexivity|].
  simpl. destruct (p x); [simpl; f_equal; exact IH | reflexivity].
Qed.

Lemma drop_while_head {A} (p : A -> bool) (l : list A) x r :
  drop_while p l = x :: r -> p x = false.
Proof.
  induction l as [|y l IH]; [discriminate|].
  simpl. destruct (p y) eqn:Hy; [exact IH|]. intros [= <- _]. exact Hy.
Qed.

Lemma length_toLowerCase s : length (toLowerCase s) = length s.
Proof. apply length_map. Qed.

(** A path that does not end in a slash ends in its extension. *)
Lemma extname_suffix p :
  endsWith p (lit "/") = false -> exists stem, p = stem ++ extname p.
Proof.
  intros Hslash. unfold extname, last_component_rev.
  assert (Hrev : drop_while is_slash (rev p) = rev p).
  { destruct (rev p) as [|c r] eqn:Hr; [reflexivity|].
    simpl. destruct (is_slash c) eqn:Hc; [|reflexivity].
    exfalso. unfold is_slash in Hc. apply N.eqb_eq in Hc. subst c.
    apply (f_equal (@rev N)) in Hr. rewrite rev_involutive in Hr. simpl in Hr.
    subst p. unfold endsWith in Hslash.
    rewrite length_app in Hslash. simpl in Hslash.
    replace (length (rev r) + 1 - 1)%nat with (length (rev r)) in Hslash by lia.
    rewrite drop_app_length in Hslash.
    destruct (length (rev r) + 1)%nat eqn:Hn; [lia|]. discriminate. }
  rewrite Hrev.
  set (comp := take_while (fun c => negb (is_slash c)) (rev p)).
  set (ext_rev := take_while (fun c => negb (is_dot c)) comp).
  destruct (drop_while (fun c => negb (is_dot c)) comp) as [|d pre] eqn:Hd.
  { exists p. rewrite app_nil_r. reflexivity. }
  destruct pre as [|d' pre].
  { exists p. rewrite app_nil_r. reflexivity. }
  destruct (forallb is_dot (d' :: pre) && (length (d' :: pre) =? 1)%nat
            && (length ext_rev =? 0)%nat).
  { exists p. rewrite app_nil_r. reflexivity. }
  pose proof (drop_while_head _ _ _ _ Hd) as Hdot.
  apply negb_false_iff in Hdot. unfold is_dot in Hdot.
  apply N.eqb_eq in Hdot. subst d.
  pose proof (take_drop_while (fun c => negb (is_dot c)) comp) as Hcomp.
  fold ext_rev in Hcomp. rewrite Hd in Hcomp.
  pose proof (take_drop_while (fun c => negb (is_slash c)) (rev p)) as Hp.
  fold comp in Hp. rewrite Hcomp in Hp.
  apply (f_equal (@rev N)) in Hp. rewrite rev_involutive in Hp.
  rewrite !rev_app_distr in Hp.
  change (rev (46%N :: d' :: pre)) with (rev (d' :: pre) ++ [46%N]) in Hp.
  exists (rev (drop_while (fun c => negb (is_slash c)) (rev p)) ++ rev (d' :: pre)).
  rewrite Hp at 1. rewrite <- !app_assoc. reflexivity.
Qed.

(** Replacing a suffix that is there, whatever its case. *)
Lemma test_suffix_ci_app suffix stem e :
  toLowerCase e = suffix -> test_suffix_ci suffix (stem ++ e) = true.
Proof.
  intros He. unfold test_suffix_ci, endsWith.
  assert (Hlen : length suffix = length e) by (rewrite <- He; apply length_toLowerCase).
  rewrite length_toLowerCase, Hlen, length_app.
  replace (length stem + length e - length e)%nat with (length stem) by lia.
  unfold toLowerCase at 1. rewrite map_app.
  rewrite <- (length_map lower_char stem) at 2. rewrite drop_app_length.
  apply andb_true_iff. split; [apply Nat.leb_le; lia|].
  apply seq_true. exact He.
Qed.

Lemma replace_suffix_ci_app suffix repl stem e :
  toLowerCase e = suffix -> replace_suffix_ci suffix repl (stem ++ e) = stem ++ repl.
Proof.
  intros He. unfold replace_suffix_ci. rewrite (test_suffix_ci_app _ _ _ He).
  assert (Hlen : length suffix = length e) by (rewrite <- He; apply length_toLowerCase).
  rewrite Hlen, length_app.
  replace (length stem + length e - length e)%nat with (length stem) by lia.
  rewrite take_app_length. reflexivity.
Qed.

(** A name that ends in [.htm] does not end in [.html]. *)
Lemma htm_is_not_html stem e :
  toLowerCase e = lit ".htm" -> test_suffix_ci (lit ".html") (stem ++ e) = false.
Proof.
  intros He. unfold test_suffix_ci, endsWith.
  apply andb_false_iff. right. apply seq_false.
  assert (HL : toLowerCase (stem ++ e) = toLowerCase stem ++ [46; 104; 116; 109]%N).
  { unfold toLowerCase at 1. rewrite map_app. fold (toLowerCase e). rewrite He.
    reflexivity. }
  rewrite HL. intros H.
  pose proof (take_drop (length (toLowerCase stem ++ [46; 104; 116; 109]%N)
                         - length (lit ".html"))
                (toLowerCase stem ++ [46; 104; 116; 109]%N)) as Hsplit.
  rewrite H in Hsplit.
  apply (f_equal (@rev N)) in Hsplit. rewrite !rev_app_distr in Hsplit.
  change (lit ".html") with [46; 104; 116; 109; 108]%N in Hsplit.
  simpl in Hsplit. discriminate.
Qed.

Lemma replace_html_suffix_app stem e :
  toLowerCase e = lit ".html" \/ toLowerCase e = lit ".htm" ->
  replace_html_suffix (stem ++ e) = stem ++ lit ".pdf".
Proof.
  unfold replace_html_suffix. intros [He|He].
  - rewrite (test_suffix_ci_app _ _ _ He). apply replace_suffix_ci_app, He.
  - rewrite (htm_is_not_html _ _ He). apply replace_suffix_ci_app, He.
Qed.

(** [path.extname] on some paths: the case of the extension is kept, a
    trailing slash is ignored, a leading dot starts no extension. *)
Example extname_samples :
  map extname [lit "a.txt"; lit "dir/b.TXT"; lit "notes.txt/"; lit ".txt";
               lit "x/y.tar.gz"; lit "x.d/y"; lit ".."; lit "a."]
  = [lit ".txt"; lit ".TXT"; lit ".txt"; []; lit ".gz"; []; []; lit "."].
Proof. reflexivity. Qed.

Example guessExt_samples :
  map Service.guessExtFromContentType
      [Some (lit "application/pdf"); Some (lit "Text/HTML; charset=utf-8");
       Some (lit "application/x-zip-compressed"); Some (lit "image/png"); Some []; None]
  = [Some (lit ".pdf"); Some (lit ".html"); Some (lit ".zip"); None; None; None].
Proof. reflexivity. Qed.

End JsFacts.

(** ** Text layout *)
Module TxtLayoutFacts.
Import Js TxtLayout.

(** *** Splitting into words *)

Lemma split_from_nonempty b t : split_from b t <> [].
Proof.
  revert b. induction t as [|c t IH]; intros b; simpl; [discriminate|].
  destruct (is_space c).
  - destruct b; [apply IH | discriminate].
  - destruct (split_from false t); discriminate.
Qed.

(** Replacing CR LF by LF changes no word: both are white space. *)
Lemma split_from_replace_crlf t :
  (forall b, split_from b (replace_crlf t) = split_from b t)
  /\ (forall c b, split_from b (replace_crlf (c :: t)) = split_from b (c :: t)).
Proof.
  induction t as [|d t [IH1 IH2]].
  - split; intros; reflexivity.
  - split; [intros b; apply IH2|].
    intros c b.
    change (replace_crlf (c :: d :: t))
      with (if ((c =? 13) && (d =? 10))%N then 10%N :: replace_crlf t
            else c :: replace_crlf (d :: t)).
    destruct ((c =? 13) && (d =? 10))%N eqn:Hcd.
    + apply andb_true_iff in Hcd as [Hc Hd].
      apply N.eqb_eq in Hc, Hd. subst c d.
      change (split_from b (10%N :: replace_crlf t))
        with (if b then split_from true (replace_crlf t)
              else [] :: split_from true (replace_crlf t)).
      change (split_from b (13%N :: 10%N :: t))
        with (if b then split_from true t else [] :: split_from true t).
      rewrite IH1. reflexivity.
    + change (split_from b (c :: replace_crlf (d :: t)))
        with (if is_space c
              then if b then split_from true (replace_crlf (d :: t))
                   else [] :: split_from true (replace_crlf (d :: t))
              else match split_from false (replace_crlf (d :: t)) with
                   | f :: fs => (c :: f) :: fs
                   | [] => [[c]]
                   end).
      rewrite !IH2. reflexivity.
Qed.

Lemma split_ws_replace_crlf t : split_ws (replace_crlf t) = split_ws t.
Proof. apply (proj1 (split_from_replace_crlf t)). Qed.

(** Appending text keeps every word but the last, which can only grow. *)
Lemma split_from_app b t e :
  exists P l s rest,
    split_from b t = P ++ [l] /\ split_from b (t ++ e) = P ++ (l ++ s) :: rest.
Proof.
  revert b. induction t as [|c t IH]; intros b.
  - simpl. destruct (split_from b e) as [|s rest] eqn:He.
    + exfalso. exact (split_from_nonempty _ _ He).
    + exists [], [], s, rest. split; reflexivity.
  - simpl. destruct (is_space c).
    + destruct (IH true) as (P & l & s & rest & H1 & H2).
      destruct b.
      * exists P, l, s, rest. split; assumption.
      * exists ([] :: P), l, s, rest. rewrite H1, H2. split; reflexivity.
    + destruct (IH false) as (P & l & s & rest & H1 & H2).
      rewrite H1, H2. destruct P as [|p0 P].
      * exists [], (c :: l), s, rest. split; reflexivity.
      * exists ((c :: p0) :: P), l, s, rest. split; reflexivity.
Qed.

(** A word without white space is the only word of its text. *)
Lemma split_from_word b w :
  forallb (fun c => negb (is_space c)) w = true -> split_from b w = [w].
Proof.
  revert b. induction w as [|c w IH]; intros b H; [reflexivity|].
  simpl in H. apply andb_true_iff in H as [Hc Hw].
  simpl. destruct (is_space c); [discriminate|].
  rewrite (IH false Hw). reflexivity.
Qed.

Example split_ws_sample :
  split_ws (lit " to  be or" ++ [13; 10]%N ++ lit "not ")
  = [[]; lit "to"; lit "be"; lit "or"; lit "not"; []].
Proof. reflexivity. Qed.

(** With the stand-in font, 85 characters fill a line and 44 lines a page. *)
Example txt_document_sample :
  map (@length drawn)
      (txt_document Stub.width (concat (replicate 380 (lit "helloworld"))) (lit "a.txt"))
  = [45; 1]%nat.
Proof. vm_compute. reflexivity. Qed.

(** *** Wrapping *)
Section Wrap.

Variable width : jstring -> Q -> Q.

Local Abbreviation fits := (fits width).
Local Abbreviation chunk_step := (chunk_step width).
Local Abbreviation wrap_step := (wrap_step width).

Lemma length_push_if s ls :
  length (push_if s ls) = (length ls + if truthy s then 1 else 0)%nat.
Proof.
  unfold push_if. destruct (truthy s); [rewrite length_app; reflexivity | lia].
Qed.

Lemma truthy_app_l (a b : jstring) : truthy a = true -> truthy (a ++ b) = true.
Proof. destruct a; [discriminate | reflexivity]. Qed.

Lemma truthy_app_r (a b : jstring) : truthy b = true -> truthy (a ++ b) = true.
Proof. destruct a; [trivial | reflexivity]. Qed.

Lemma chunk_step_current st ch : truthy (current (chunk_step st ch)) = true.
Proof.
  unfold TxtLayout.chunk_step. destruct (fits _); simpl; [|reflexivity].
  apply truthy_app_r. reflexivity.
Qed.

Lemma chunk_step_lines st ch :
  (length (lines st) <= length (lines (chunk_step st ch)))%nat.
Proof.
  unfold TxtLayout.chunk_step. destruct (fits _); simpl; [lia|].
  rewrite length_push_if. lia.
Qed.

Lemma chunk_step_count st ch : (line_count st <= line_count (chunk_step st ch))%nat.
Proof.
  unfold line_count. rewrite !length_push_if.
  rewrite chunk_step_current.
  unfold TxtLayout.chunk_step. destruct (fits _); simpl.
  - destruct (truthy (current st)); lia.
  - rewrite length_push_if. lia.
Qed.

Lemma chunk_fold_lines w st :
  (length (lines st) <= length (lines (fold_left chunk_step w st)))%nat.
Proof.
  revert st. induction w as [|ch w IH]; intros st; simpl; [lia|].
  etransitivity; [apply chunk_step_lines | apply IH].
Qed.

Lemma chunk_fold_count w st :
  (line_count st <= line_count (fold_left chunk_step w st))%nat.
Proof.
  revert st. induction w as [|ch w IH]; intros st; simpl; [lia|].
  etransitivity; [apply chunk_step_count | apply IH].
Qed.

Lemma chunk_fold_current w st :
  truthy w = true -> truthy (current (fold_left chunk_step w st)) = true.
Proof.
  revert st. induction w as [|ch w IH]; intros st H; [discriminate|].
  simpl. destruct w as [|ch' w]; [apply chunk_step_current|].
  apply IH. reflexivity.
Qed.

(** Splitting a word from an empty chunk leaves at least one line when the
    word is not empty. *)
Lemma chunk_fold_from_empty w ls :
  (length ls + (if truthy w then 1 else 0)
   <= line_count (fold_left chunk_step w (Wrap ls [])))%nat.
Proof.
  unfold line_count. rewrite length_push_if.
  pose proof (chunk_fold_lines w (Wrap ls [])) as Hl. simpl in Hl.
  destruct (truthy w) eqn:Hw; [|lia].
  rewrite (chunk_fold_current w _ Hw). lia.
Qed.

(** A step of the word loop never loses a line. *)
Lemma wrap_step_count st w : (line_count st <= line_count (wrap_step st w))%nat.
Proof.
  unfold TxtLayout.wrap_step.
  destruct (fits _).
  - unfold line_count. rewrite !length_push_if. simpl.
    destruct (truthy (current st)) eqn:Hc; [|lia].
    rewrite (truthy_app_l _ _ Hc). lia.
  - destruct (negb (fits w)).
    + etransitivity; [|apply chunk_fold_count].
      unfold line_count. simpl. rewrite !length_push_if. simpl. lia.
    + unfold line_count. simpl. rewrite !length_push_if. lia.
Qed.

Lemma wrap_fold_count ws st :
  (line_count st <= line_count (fold_left wrap_step ws st))%nat.
Proof.
  revert st. induction ws as [|w ws IH]; intros st; simpl; [lia|].
  etransitivity; [apply wrap_step_count | apply IH].
Qed.

Lemma fits_prefix (Hmono : width_monotone width) a b :
  fits (a ++ b) = true -> fits a = true.
Proof.
  unfold TxtLayout.fits. rewrite !Qle_bool_iff. intros H.
  eapply Qle_trans; [apply Hmono | exact H].
Qed.

(** With such a measure, a longer last word never gives fewer lines. *)
Lemma wrap_step_extend (Hmono : width_monotone width) st w s :
  (line_count (wrap_step st w) <= line_count (wrap_step st (w ++ s)))%nat.
Proof.
  unfold TxtLayout.wrap_step.
  set (trial := if truthy (current st) then current st ++ [32%N] ++ w else w).
  assert (Htrial : (if truthy (current st) then current st ++ [32%N] ++ w ++ s
                    else w ++ s) = trial ++ s).
  { unfold trial. destruct (truthy (current st)); [|reflexivity].
    rewrite <- !app_assoc. reflexivity. }
  rewrite Htrial.
  set (ls1 := push_if (current st) (lines st)).
  assert (Hafter : (length ls1 + (if truthy (w ++ s) then 1 else 0)
            <= line_count (if negb (fits (w ++ s))
                           then fold_left chunk_step (w ++ s) (Wrap ls1 [])
                           else Wrap ls1 (w ++ s)))%nat).
  { destruct (negb (fits (w ++ s))).
    - apply chunk_fold_from_empty.
    - unfold line_count. simpl. rewrite length_push_if. lia. }
  assert (Hws : ((if truthy w then 1 else 0) <= (if truthy (w ++ s) then 1 else 0))%nat).
  { destruct (truthy w) eqn:Hw; [rewrite (truthy_app_l _ _ Hw); lia|].
    destruct (truthy (w ++ s)); lia. }
  destruct (fits (trial ++ s)) eqn:Hts.
  - rewrite (fits_prefix Hmono _ _ Hts).
    unfold line_count. simpl. rewrite !length_push_if.
    destruct (truthy trial) eqn:Ht; [rewrite (truthy_app_l _ _ Ht); lia|].
    destruct (truthy (trial ++ s)); lia.
  - destruct (fits trial) eqn:Ht.
    + etransitivity; [|exact Hafter].
      unfold line_count. simpl. rewrite length_push_if.
      subst ls1. rewrite length_push_if. subst trial.
      destruct (truthy (current st)) eqn:Hc.
      * rewrite (truthy_app_l _ _ Hc). lia.
      * lia.
    + destruct (fits w) eqn:Hw; simpl negb at 1; cbv iota.
      * etransitivity; [|exact Hafter].
        unfold line_count. simpl. rewrite length_push_if. lia.
      * assert (Hw' : fits (w ++ s) = false).
        { destruct (fits (w ++ s)) eqn:Hw'; [|reflexivity].
          rewrite (fits_prefix Hmono _ _ Hw') in Hw. discriminate. }
        rewrite Hw'. simpl negb. cbv iota.
        rewrite fold_left_app. apply chunk_fold_count.
Qed.

(** Appending text never gives fewer lines. *)
Lemma txt_lines_extend (Hmono : width_monotone width) t e :
  (length (txt_lines width t) <= length (txt_lines width (t ++ e)))%nat.
Proof.
  unfold txt_lines. rewrite !split_ws_replace_crlf.
  destruct (split_from_app false t e) as (P & l & s & rest & H1 & H2).
  unfold split_ws. rewrite H1, H2.
  unfold wrap_words. rewrite !fold_left_app. simpl.
  set (st1 := fold_left wrap_step P (Wrap [] [])).
  change (line_count (wrap_step st1 l)
          <= line_count (fold_left wrap_step rest (wrap_step st1 (l ++ s))))%nat.
  etransitivity; [apply (wrap_step_extend Hmono) | apply wrap_fold_count].
Qed.

(** *** Every line fits *)

Lemma push_if_fits s ls :
  Forall (fun l => fits l = true) ls ->
  (truthy s = true -> fits s = true) ->
  Forall (fun l => fits l = true) (push_if s ls).
Proof.
  intros Hls Hs. unfold push_if. destruct (truthy s); [|exact Hls].
  apply Forall_app. split; [exact Hls|]. constructor; [auto | constructor].
Qed.

Lemma chunk_step_ok (Hglyph : glyphs_fit width) st ch :
  wrap_ok width st -> wrap_ok width (chunk_step st ch).
Proof.
  intros [Hl Hc]. unfold TxtLayout.chunk_step.
  destruct (fits (current st ++ [ch])) eqn:Ht; split; simpl; auto.
  apply push_if_fits; assumption.
Qed.

Lemma chunk_fold_ok (Hglyph : glyphs_fit width) w st :
  wrap_ok width st -> wrap_ok width (fold_left chunk_step w st).
Proof.
  revert st. induction w as [|ch w IH]; intros st H; [exact H|].
  simpl. apply IH, chunk_step_ok; assumption.
Qed.

Lemma wrap_step_ok (Hglyph : glyphs_fit width) st w :
  wrap_ok width st -> wrap_ok width (wrap_step st w).
Proof.
  intros [Hl Hc]. unfold TxtLayout.wrap_step.
  set (trial := if truthy (current st) then current st ++ [32%N] ++ w else w).
  destruct (fits trial) eqn:Ht.
  - split; simpl; [exact Hl | intros _; exact Ht].
  - destruct (fits w) eqn:Hw; simpl negb; cbv iota.
    + split; simpl; [apply push_if_fits; assumption | auto].
    + apply chunk_fold_ok; [assumption|].
      split; simpl; [apply push_if_fits; assumption | discriminate].
Qed.

Lemma wrap_words_ok (Hglyph : glyphs_fit width) ws st :
  wrap_ok width st -> wrap_ok width (fold_left wrap_step ws st).
Proof.
  revert st. induction ws as [|w ws IH]; intros st H; [exact H|].
  simpl. apply IH, wrap_step_ok; assumption.
Qed.

Lemma txt_lines_fit (Hglyph : glyphs_fit width) t :
  Forall (fun l => fits l = true) (txt_lines width t).
Proof.
  unfold txt_lines, wrap_words.
  destruct (wrap_words_ok Hglyph (split_ws (replace_crlf t)) (Wrap [] [])) as [Hl Hc].
  { split; simpl; [constructor | discriminate]. }
  apply push_if_fits; assumption.
Qed.

(** *** Splitting one wide word *)

Lemma concat_push_if (s : jstring) ls : concat (push_if s ls) = concat ls ++ s.
Proof.
  unfold push_if. destruct s as [|c s]; simpl; [rewrite app_nil_r; reflexivity|].
  rewrite concat_app. simpl. rewrite app_nil_r. reflexivity.
Qed.

Lemma chunk_step_concat st ch :
  concat (push_if (current (chunk_step st ch)) (lines (chunk_step st ch)))
  = concat (push_if (current st) (lines st)) ++ [ch].
Proof.
  rewrite !concat_push_if. unfold TxtLayout.chunk_step.
  destruct (fits _); simpl.
  - rewrite app_assoc. reflexivity.
  - rewrite concat_push_if. reflexivity.
Qed.

Lemma chunk_fold_concat w st :
  concat (push_if (current (fold_left chunk_step w st))
                  (lines (fold_left chunk_step w st)))
  = concat (push_if (current st) (lines st)) ++ w.
Proof.
  revert st. induction w as [|ch w IH]; intros st; simpl.
  - rewrite app_nil_r. reflexivity.
  - rewrite IH, chunk_step_concat, <- app_assoc. reflexivity.
Qed.

(** The lines of a text that is one word too wide for a line. *)
Lemma txt_lines_wide_word w :
  forallb (fun c => negb (is_space c)) w = true ->
  fits w = false ->
  txt_lines width w
  = let st := fold_left chunk_step w (Wrap [] []) in
    push_if (current st) (lines st).
Proof.
  intros Hword Hwide. unfold txt_lines.
  rewrite split_ws_replace_crlf. unfold split_ws.
  rewrite (split_from_word _ _ Hword).
  unfold wrap_words. simpl. unfold TxtLayout.wrap_step. simpl.
  rewrite Hwide. reflexivity.
Qed.

Lemma wide_word_fragments (Hglyph : glyphs_fit width) w :
  forallb (fun c => negb (is_space c)) w = true ->
  fits w = false ->
  concat (txt_lines width w) = w
  /\ Forall (fun l => fits l = true) (txt_lines width w)
  /\ (w <> [] -> (2 <= length (txt_lines width w))%nat).
Proof.
  intros Hword Hwide.
  pose proof (txt_lines_fit Hglyph w) as Hfit.
  assert (Hcat : concat (txt_lines width w) = w).
  { rewrite (txt_lines_wide_word w Hword Hwide). cbv zeta.
    rewrite chunk_fold_concat. reflexivity. }
  split; [exact Hcat|]. split; [exact Hfit|].
  intros Hne. destruct (txt_lines width w) as [|l [|l' ls]]; simpl in *.
  - congruence.
  - rewrite app_nil_r in Hcat. subst l.
    apply Forall_inv in Hfit. congruence.
  - lia.
Qed.

End Wrap.

(** *** Pagination *)

Lemma layout_step_tick st line :
  (length (finished (layout_step st line)), y (layout_step st line))
  = tick (length (finished st), y st).
Proof.
  unfold layout_step, tick, page_full. simpl.
  destruct (negb (Qle_bool (margin + lineHeight) (y st))); simpl; [|reflexivity].
  rewrite length_app. simpl. rewrite Nat.add_1_r. reflexivity.
Qed.

(** The page loop only counts its lines. *)
Lemma layout_fold_tick ls st :
  (length (finished (fold_left layout_step ls st)), y (fold_left layout_step ls st))
  = Nat.iter (length ls) tick (length (finished st), y st).
Proof.
  revert st. induction ls as [|l ls IH]; intros st; [reflexivity|].
  cbn [fold_left length]. rewrite Nat.iter_succ_r, IH, layout_step_tick.
  reflexivity.
Qed.

Lemma tick_pages s : (fst s <= fst (tick s))%nat.
Proof.
  unfold tick. destruct (negb (Qle_bool (margin + lineHeight) (snd s))); simpl; lia.
Qed.

Lemma iter_tick_mono n m s :
  (n <= m)%nat -> (fst (Nat.iter n tick s) <= fst (Nat.iter m tick s))%nat.
Proof.
  induction 1 as [|m Hle IH]; [lia|].
  simpl. etransitivity; [exact IH | apply tick_pages].
Qed.

Lemma length_draw_footer width footer ps :
  length (draw_footer width footer ps) = length ps.
Proof. destruct ps; reflexivity. Qed.

(** The number of pages of the document is the count that [tick] reaches
    after as many steps as there are lines. *)
Lemma txt_document_pages width t footer :
  length (txt_document width t footer)
  = S (fst (Nat.iter (length (txt_lines width t)) tick (0%nat, (snd pageSize - margin)%Q))).
Proof.
  unfold txt_document. rewrite length_draw_footer, length_app. simpl.
  unfold layout_lines.
  pose proof (layout_fold_tick (txt_lines width t)
                (Layout [] [] (snd pageSize - margin)%Q)) as H.
  simpl in H. rewrite <- H. simpl. lia.
Qed.

(** What the page loop draws is the lines, at the body size. *)
Lemma layout_step_items (L : list text) st line :
  In line L ->
  Forall (Forall (fun it => In (d_text it) L)) (finished st ++ [cur_page st]) ->
  Forall (Forall (fun it => In (d_text it) L))
         (finished (layout_step st line) ++ [cur_page (layout_step st line)]).
Proof.
  intros Hin H. unfold layout_step.
  assert (H1 : Forall (Forall (fun it => In (d_text it) L))
                 (finished (if page_full st then new_page st else st)
                  ++ [cur_page (if page_full st then new_page st else st)])).
  { destruct (page_full st); [|exact H]. simpl.
    apply Forall_app. split; [exact H | repeat constructor]. }
  simpl. apply Forall_app in H1 as [Hf Hc]. apply Forall_app. split; [exact Hf|].
  constructor; [|constructor]. apply Forall_inv in Hc.
  apply Forall_app. split; [exact Hc|]. constructor; [exact Hin | constructor].
Qed.

Lemma layout_fold_items (L : list text) ls st :
  (forall l, In l ls -> In l L) ->
  Forall (Forall (fun it => In (d_text it) L)) (finished st ++ [cur_page st]) ->
  Forall (Forall (fun it => In (d_text it) L))
         (finished (fold_left layout_step ls st)
          ++ [cur_page (fold_left layout_step ls st)]).
Proof.
  revert st. induction ls as [|l ls IH]; intros st HL H; [exact H|].
  simpl. apply IH; [intros; apply HL; right; assumption|].
  apply layout_step_items; [apply HL; left; reflexivity | exact H].
Qed.

(** Every item of the document is a line of the text or the footer. *)
Lemma txt_document_items width t footer pg it :
  In pg (txt_document width t footer) -> In it pg ->
  In (d_text it) (txt_lines width t) \/ d_size it = 9%Q.
Proof.
  unfold txt_document.
  pose proof (layout_fold_items (txt_lines width t) (txt_lines width t)
                (Layout [] [] (snd pageSize - margin)%Q) (fun _ H => H)) as H.
  change (fold_left layout_step (txt_lines width t)
            (Layout [] [] (snd pageSize - margin)%Q))
    with (layout_lines (txt_lines width t)) in H.
  specialize (H ltac:(repeat constructor)).
  destruct (finished (layout_lines (txt_lines width t))
            ++ [cur_page (layout_lines (txt_lines width t))]) as [|first rest];
    simpl; [tauto|].
  apply Forall_cons_iff in H as [Hfirst Hrest].
  intros [<-|Hpg] Hit.
  - apply in_app_or in Hit as [Hit|[<-|[]]]; [|right; reflexivity].
    left. rewrite Forall_forall in Hfirst. apply Hfirst.
    apply list_elem_of_In. exact Hit.
  - left. rewrite Forall_forall in Hrest.
    specialize (Hrest pg ltac:(apply list_elem_of_In; exact Hpg)).
    rewrite Forall_forall in Hrest. apply Hrest, list_elem_of_In, Hit.
Qed.

End TxtLayoutFacts.

(** ** The service *)
Module ServiceFacts.
Import Js Service.

(** *** The monad *)

Lemma bind_ok {A B} (m : M A) (k : A -> M B) w a w' :
  m w = (Ok a, w') -> bind m k w = k a w'.
Proof. unfold bind. intros ->. reflexivity. Qed.

Lemma bind_throw {A B} (m : M A) (k : A -> M B) w e w' :
  m w = (Throw e, w') -> bind m k w = (Throw e, w').
Proof. unfold bind. intros ->. reflexivity. Qed.

Lemma bind_inv_ok {A B} (m : M A) (k : A -> M B) w b w' :
  bind m k w = (Ok b, w') ->
  exists a w1, m w = (Ok a, w1) /\ k a w1 = (Ok b, w').
Proof.
  unfold bind. destruct (m w) as [[a|e] w1]; [eauto | discriminate].
Qed.

Lemma read_file_found path data w :
  scratch w !! path = Some data -> read_file path w = (Ok data, w).
Proof. unfold read_file. intros ->. reflexivity. Qed.

(** *** Counting keys *)

Lemma size_list_to_set_le (l : list jstring) :
  size (list_to_set l : gset jstring) <= length l.
Proof.
  induction l as [|x l IH]; [rewrite list_to_set_nil, size_empty; cbn; lia|].
  rewrite list_to_set_cons. cbn [length].
  rewrite size_union_alt, size_singleton.
  assert (H : size ((list_to_set l : gset jstring) ∖ {[x]}) <= size (list_to_set l : gset jstring)).
  { apply subseteq_size. set_solver. }
  lia.
Qed.

(** Two entries stored under one key leave fewer keys than entries. *)
Lemma size_list_to_set_dup (l1 l2 l3 : list jstring) q :
  size (list_to_set (l1 ++ q :: l2 ++ q :: l3) : gset jstring)
  < length (l1 ++ q :: l2 ++ q :: l3).
Proof.
  assert (H : (list_to_set (l1 ++ q :: l2 ++ q :: l3) : gset jstring)
              = list_to_set (l1 ++ l2 ++ q :: l3)).
  { apply set_eq. intros x. rewrite !elem_of_list_to_set.
    rewrite !elem_of_app, !elem_of_cons, !elem_of_app, !elem_of_cons. tauto. }
  rewrite H. eapply Nat.le_lt_trans; [apply size_list_to_set_le|].
  rewrite !length_app. cbn [length]. rewrite !length_app. cbn [length]. lia.
Qed.

(** *** Running the adapters *)
Section Adapters.

Variable E : Externals.

Lemma txtToPdf_toPath_run data filename w :
  let outPath :=
    join_temp E (temp_nonce E (drawn_names w) ++ lit "-"
                 ++ basename_ext E filename (lit ".txt") ++ lit ".pdf") in
  txtToPdf_toPath E data filename w
  = (Ok outPath,
     World (<[outPath := pdf_save E (txt_pages E data filename)]> (scratch w))
           (S (drawn_names w)) (trace w ++ [PdfLibRender])).
Proof. reflexivity. Qed.

(** The renderer either throws or leaves the PDF of its input behind. *)
Lemma htmlToPdfWithWK_toPath_run html base w :
  (exists e w', htmlToPdfWithWK_toPath E html base w = (Throw e, w'))
  \/ (exists pdfPath w' pdf,
        rendered E html = Some pdf
        /\ htmlToPdfWithWK_toPath E html base w = (Ok pdfPath, w')
        /\ scratch w' !! pdfPath = Some pdf).
Proof.
  unfold htmlToPdfWithWK_toPath, rendered, bind, fresh, write_file, log, read_file.
  cbn [scratch drawn_names trace]. rewrite lookup_insert_eq.
  destruct (exit_code (wkhtmltopdf E (utf8_encode E html)) =? 0)%Z; cbn [negb].
  - right. eexists _, _, _. split; [reflexivity|]. split; [reflexivity|].
    cbn [scratch]. apply lookup_insert_eq.
  - left. eexists _, _. reflexivity.
Qed.

Lemma rtfToHtmlWithUnrtf_run data w :
  (exists e w', rtfToHtmlWithUnrtf E data w = (Throw e, w'))
  \/ (exists w', (exit_code (unrtf E data) =? 0)%Z = true
        /\ rtfToHtmlWithUnrtf E data w = (Ok (tool_stdout (unrtf E data)), w')).
Proof.
  unfold rtfToHtmlWithUnrtf, bind, fresh, write_file, log, read_file.
  cbn [scratch drawn_names trace]. rewrite lookup_insert_eq.
  destruct (exit_code (unrtf E data) =? 0)%Z; cbn [negb].
  - right. eexists. split; reflexivity.
  - left. eexists _, _. reflexivity.
Qed.

Lemma mammoth_run data w :
  (exists e w', mammoth E data w = (Throw e, w'))
  \/ (exists html w', mammoth_convertToHtml E data = Ok html
        /\ mammoth E data w = (Ok html, w')).
Proof.
  unfold mammoth, bind, log, lift.
  destruct (mammoth_convertToHtml E data) as [html|e].
  - right. eexists _, _. split; reflexivity.
  - left. eexists _, _. reflexivity.
Qed.

(** *** One step of the batch *)

Lemma supported_target path : supported path = bool_decide (is_Some (entry_target path)).
Proof.
  unfold supported, supported_ext, entry_target.
  destruct (seq _ (lit ".txt")); [reflexivity|].
  destruct (seq _ (lit ".docx")); [reflexivity|].
  destruct (seq _ (lit ".rtf")); [reflexivity|].
  destruct (seq _ (lit ".html")); [reflexivity|].
  destruct (seq _ (lit ".htm")); [reflexivity|].
  symmetry. apply bool_decide_eq_false. intros [? ?]. discriminate.
Qed.

Lemma batch_step_ignored (out : gmap jstring bytes) path data w :
  entry_target path = None -> batch_step E out (path, data) w = (Ok out, w).
Proof.
  unfold entry_target, batch_step.
  destruct (seq _ (lit ".txt")); [discriminate|].
  destruct (seq _ (lit ".docx")); [discriminate|].
  destruct (seq _ (lit ".rtf")); [discriminate|].
  destruct (seq _ (lit ".html") || seq _ (lit ".htm")); [discriminate|].
  reflexivity.
Qed.

(** Rendering a document and reading the PDF back into [out]. *)
Lemma render_into (out : gmap jstring bytes) (q : jstring) html base w :
  (exists e w',
      (let* pdfPath := htmlToPdfWithWK_toPath E html base in
       let* pdfBytes := read_file pdfPath in
       ret (<[q := pdfBytes]> out)) w = (Throw e, w'))
  \/ (exists pdf w',
        rendered E html = Some pdf
        /\ (let* pdfPath := htmlToPdfWithWK_toPath E html base in
            let* pdfBytes := read_file pdfPath in
            ret (<[q := pdfBytes]> out)) w = (Ok (<[q := pdf]> out), w')).
Proof.
  destruct (htmlToPdfWithWK_toPath_run html base w)
    as [(e & w' & H)|(pdfPath & w' & pdf & Hpdf & H & Hfile)].
  - left. exists e, w'. apply bind_throw, H.
  - right. exists pdf, w'. split; [exact Hpdf|].
    rewrite (bind_ok _ _ _ _ _ H).
    rewrite (bind_ok _ _ _ _ _ (read_file_found _ _ _ Hfile)). reflexivity.
Qed.

(** A converted entry either aborts the batch or stores its PDF under its
    key. *)
Lemma batch_step_converted (out : gmap jstring bytes) path data q w :
  entry_target path = Some q ->
  (exists e w', batch_step E out (path, data) w = (Throw e, w'))
  \/ (exists pdf w',
        entry_pdf E path data = Some pdf
        /\ batch_step E out (path, data) w = (Ok (<[q := pdf]> out), w')).
Proof.
  unfold entry_target, entry_pdf, batch_step.
  destruct (seq _ (lit ".txt")).
  { intros [= <-]. right. eexists _, _. split; [reflexivity|].
    unfold bind. rewrite txtToPdf_toPath_run. cbv zeta.
    unfold read_file. cbn [scratch]. rewrite lookup_insert_eq. reflexivity. }
  destruct (seq _ (lit ".docx")).
  { intros [= <-].
    destruct (mammoth_run data w) as [(e & w' & H)|(html & w' & Hm & H)].
    - left. exists e, w'. apply bind_throw, H.
    - rewrite (bind_ok _ _ _ _ _ H), Hm. apply render_into. }
  destruct (seq _ (lit ".rtf")).
  { intros [= <-].
    destruct (rtfToHtmlWithUnrtf_run data w) as [(e & w' & H)|(w' & Hx & H)].
    - left. exists e, w'. apply bind_throw, H.
    - rewrite (bind_ok _ _ _ _ _ H), Hx. apply render_into. }
  destruct (seq _ (lit ".html") || seq _ (lit ".htm")); [|discriminate].
  intros [= <-]. apply render_into.
Qed.

(** The keys of some entries. A directory entry keeps its path: [extname]
    ignores the trailing slash, the replacement of the suffix does not. *)
Example entry_target_samples :
  map entry_target [lit "a.txt"; lit "docs/B.DOCX"; lit "c.htm"; lit "d.HTML";
                    lit "e.exe"; lit "README"; lit "notes.txt/"]
  = [Some (lit "a.pdf"); Some (lit "docs/B.pdf"); Some (lit "c.pdf");
     Some (lit "d.pdf"); None; None; Some (lit "notes.txt/")].
Proof. reflexivity. Qed.

(** *** The whole batch *)

Lemma batch_from_app (out : gmap jstring bytes) pre rest w out' w' :
  batch_from E out (pre ++ rest) w = (Ok out', w') ->
  exists out1 w1,
    batch_from E out pre w = (Ok out1, w1)
    /\ batch_from E out1 rest w1 = (Ok out', w').
Proof.
  revert out w. induction pre as [|entry pre IH]; intros out w H.
  - exists out, w. split; [reflexivity | exact H].
  - cbn [app batch_from] in H |- *.
    apply bind_inv_ok in H as (o & w0 & Hstep & H).
    destruct (IH _ _ H) as (out1 & w1 & H1 & H2).
    exists out1, w1. split; [|exact H2].
    rewrite (bind_ok _ _ _ _ _ Hstep). exact H1.
Qed.

(** The keys of [out] are the keys of the converted entries. *)
Lemma batch_from_dom (out : gmap jstring bytes) entries w out' w' :
  batch_from E out entries w = (Ok out', w') ->
  dom out' = dom out ∪ list_to_set (targets entries).
Proof.
  revert out w. induction entries as [|[path data] entries IH]; intros out w H.
  - cbn in H. injection H as <- <-. cbn. set_solver.
  - cbn [batch_from] in H.
    apply bind_inv_ok in H as (o & w0 & Hstep & H).
    apply IH in H. rewrite H. unfold targets. cbn [omap list_omap fst].
    destruct (entry_target path) as [q|] eqn:Hq.
    + destruct (batch_step_converted out path data q w Hq)
        as [(e & w1 & Hs)|(pdf & w1 & _ & Hs)]; rewrite Hs in Hstep.
      * discriminate.
      * injection Hstep as <- <-. rewrite dom_insert_L, list_to_set_cons.
        set_solver.
    + rewrite (batch_step_ignored out path data w Hq) in Hstep.
      injection Hstep as <- <-. reflexivity.
Qed.

(** Entries that the batch ignores can be left out of the archive. *)
Lemma batch_from_filter (out : gmap jstring bytes) entries w :
  batch_from E out entries w
  = batch_from E out (List.filter (fun entry => supported (fst entry)) entries) w.
Proof.
  revert out w. induction entries as [|[path data] entries IH]; intros out w.
  - reflexivity.
  - cbn [List.filter fst]. rewrite supported_target.
    destruct (entry_target path) as [q|] eqn:Hq.
    + rewrite bool_decide_eq_true_2 by eauto.
      cbn [batch_from]. unfold bind.
      destruct (batch_step E out (path, data) w) as [[o|e] w0]; [apply IH | reflexivity].
    + rewrite bool_decide_eq_false_2 by (intros [? ?]; discriminate).
      cbn [batch_from].
      rewrite (bind_ok _ _ _ _ _ (batch_step_ignored out path data w Hq)).
      apply IH.
Qed.

(** A key is left alone by entries that are stored elsewhere. *)
Lemma batch_from_other (out : gmap jstring bytes) entries w out' w' (q : jstring) :
  batch_from E out entries w = (Ok out', w') ->
  (forall path data, In (path, data) entries -> entry_target path <> Some q) ->
  out' !! q = out !! q.
Proof.
  revert out w. induction entries as [|[path data] entries IH]; intros out w H Hq.
  - cbn in H. injection H as <- <-. reflexivity.
  - cbn [batch_from] in H.
    apply bind_inv_ok in H as (o & w0 & Hstep & H).
    rewrite (IH _ _ H) by (intros ? ? ?; eapply Hq; right; eassumption).
    specialize (Hq path data (or_introl eq_refl)).
    destruct (entry_target path) as [q'|] eqn:Hq'.
    + destruct (batch_step_converted out path data q' w Hq')
        as [(e & w1 & Hs)|(pdf & w1 & _ & Hs)]; rewrite Hs in Hstep.
      * discriminate.
      * injection Hstep as <- <-. apply lookup_insert_ne. congruence.
    + rewrite (batch_step_ignored out path data w Hq') in Hstep.
      injection Hstep as <- <-. reflexivity.
Qed.

(** The last entry stored under a key decides what is there. *)
Lemma batch_from_last (out : gmap jstring bytes) pre path data post w out' w' q :
  batch_from E out (pre ++ (path, data) :: post) w = (Ok out', w') ->
  entry_target path = Some q ->
  (forall path' data', In (path', data') post -> entry_target path' <> Some q) ->
  exists pdf, entry_pdf E path data = Some pdf /\ out' !! q = Some pdf.
Proof.
  intros H Hq Hpost.
  apply batch_from_app in H as (out1 & w1 & _ & H).
  cbn [batch_from] in H. apply bind_inv_ok in H as (o & w0 & Hstep & H).
  destruct (batch_step_converted out1 path data q w1 Hq)
    as [(e & w2 & Hs)|(pdf & w2 & Hpdf & Hs)]; rewrite Hs in Hstep.
  - discriminate.
  - injection Hstep as <- <-. exists pdf. split; [exact Hpdf|].
    rewrite (batch_from_other _ _ _ _ _ q H Hpost). apply lookup_insert_eq.
Qed.

Lemma length_targets entries :
  length (targets entries)
  = length (List.filter (fun entry => supported (fst entry)) entries).
Proof.
  induction entries as [|[path data] entries IH]; [reflexivity|].
  unfold targets in *. cbn [omap list_omap List.filter fst].
  rewrite supported_target.
  destruct (entry_target path) as [q|].
  - rewrite bool_decide_eq_true_2 by eauto. cbn. rewrite IH. reflexivity.
  - rewrite bool_decide_eq_false_2 by (intros [? ?]; discriminate). exact IH.
Qed.

Lemma targets_app entries entries' :
  targets (entries ++ entries') = targets entries ++ targets entries'.
Proof. unfold targets. apply omap_app. Qed.

(** Where the extension is the tail of the path, the key is the path with
    [.pdf] in its place. *)
Lemma entry_target_replaces path q :
  entry_target path = Some q ->
  endsWith path (lit "/") = false ->
  exists stem, path = stem ++ extname path /\ q = stem ++ lit ".pdf".
Proof.
  intros Hq Hslash.
  destruct (JsFacts.extname_suffix path Hslash) as [stem Hstem].
  exists stem. split; [exact Hstem|].
  unfold entry_target in Hq. remember (extname path) as e eqn:He.
  clear He. subst path.
  destruct (seq _ (lit ".txt")) eqn:H1.
  { apply JsFacts.seq_true in H1. injection Hq as <-.
    apply JsFacts.replace_suffix_ci_app, H1. }
  destruct (seq _ (lit ".docx")) eqn:H2.
  { apply JsFacts.seq_true in H2. injection Hq as <-.
    apply JsFacts.replace_suffix_ci_app, H2. }
  destruct (seq _ (lit ".rtf")) eqn:H3.
  { apply JsFacts.seq_true in H3. injection Hq as <-.
    apply JsFacts.replace_suffix_ci_app, H3. }
  destruct (seq _ (lit ".html")) eqn:H4.
  { apply JsFacts.seq_true in H4. injection Hq as <-.
    apply JsFacts.replace_html_suffix_app. left. exact H4. }
  destruct (seq _ (lit ".htm")) eqn:H5; [|discriminate].
  apply JsFacts.seq_true in H5. injection Hq as <-.
  apply JsFacts.replace_html_suffix_app. right. exact H5.
Qed.

Lemma elem_of_targets entries (q : jstring) :
  q ∈ targets entries
  <-> exists path data, In (path, data) entries /\ entry_target path = Some q.
Proof.
  unfold targets. rewrite list_elem_of_omap. split.
  - intros ([path data] & Hin & Hq). exists path, data.
    split; [apply list_elem_of_In, Hin | exact Hq].
  - intros (path & data & Hin & Hq). exists (path, data).
    split; [apply list_elem_of_In, Hin | exact Hq].
Qed.

(** *** The download *)

Lemma total_bytes_nonneg chunks : (0 <= total_bytes chunks)%Z.
Proof. induction chunks as [|v chunks IH]; cbn [total_bytes]; lia. Qed.

(** Within the ceiling, the whole body ends up in the file. *)
Lemma pump_within maxBytes tmpPath chunks received written w :
  (received + total_bytes chunks <= maxBytes)%Z ->
  pump maxBytes tmpPath chunks received written w
  = (Ok tt, World (<[tmpPath := written ++ concat chunks]> (scratch w))
                  (drawn_names w) (trace w)).
Proof.
  revert received written. induction chunks as [|value rest IH];
    intros received written Hle.
  - cbn. rewrite app_nil_r. reflexivity.
  - cbn [total_bytes] in Hle.
    pose proof (total_bytes_nonneg rest).
    cbn [pump concat].
    destruct (maxBytes <? received + Z.of_nat (length value))%Z eqn:Hlt.
    + apply Z.ltb_lt in Hlt. lia.
    + rewrite IH by lia. rewrite <- app_assoc. reflexivity.
Qed.

(** Past the ceiling, the loop stops at the first chunk that takes the count
    over it: the read is cancelled, the file holds the chunks before that
    one, and 413 is thrown. *)
Lemma pump_beyond maxBytes tmpPath chunks received written w :
  (received <= maxBytes)%Z ->
  (maxBytes < received + total_bytes chunks)%Z ->
  exists pre value post,
    chunks = pre ++ value :: post
    /\ (received + total_bytes pre <= maxBytes)%Z
    /\ (maxBytes < received + total_bytes pre + Z.of_nat (length value))%Z
    /\ pump maxBytes tmpPath chunks received written w
       = (Throw (HTTPException 413 (lit "Remote file exceeds 50MB limit.")),
          World (<[tmpPath := written ++ concat pre]> (scratch w))
                (drawn_names w) (trace w ++ [ReaderCancel])).
Proof.
  revert received written. induction chunks as [|value rest IH];
    intros received written Hle Hlt.
  - cbn in Hlt. lia.
  - cbn [total_bytes] in Hlt.
    destruct (maxBytes <? received + Z.of_nat (length value))%Z eqn:Hv.
    + pose proof (proj1 (Z.ltb_lt _ _) Hv) as Hv'. exists [], value, rest.
      split; [reflexivity|]. cbn [total_bytes].
      split; [lia|]. split; [lia|].
      cbn [pump concat]. rewrite Hv. rewrite app_nil_r. reflexivity.
    + pose proof (proj1 (Z.ltb_ge _ _) Hv) as Hv'.
      destruct (IH (received + Z.of_nat (length value))%Z (written ++ value))
        as (pre & v & post & -> & H1 & H2 & H3); [lia | lia |].
      exists (value :: pre), v, post. split; [reflexivity|].
      cbn [total_bytes].
      split; [lia|]. split; [lia|].
      cbn [pump concat app]. rewrite Hv, H3, <- app_assoc. reflexivity.
Qed.

Lemma downloadUrlToTemp_within urlStr maxBytes w res filename chunks :
  fetch E urlStr = Ok res ->
  res_ok res = true ->
  resolved_filename E urlStr res = Ok filename ->
  res_body res = Some chunks ->
  (total_bytes chunks <= maxBytes)%Z ->
  downloadUrlToTemp E urlStr maxBytes w
  = (Ok (download_path E filename w, filename, res_content_type res),
     World (<[download_path E filename w := concat chunks]> (scratch w))
           (S (drawn_names w)) (trace w ++ [Fetch urlStr])).
Proof.
  intros Hfetch Hok Hname Hbody Hle.
  unfold downloadUrlToTemp, bind, log, lift, fresh.
  rewrite Hfetch, Hok, Hname, Hbody. cbn [negb drawn_names scratch trace].
  rewrite pump_within by (cbn; lia). reflexivity.
Qed.

Lemma downloadUrlToTemp_beyond urlStr maxBytes w res filename chunks :
  fetch E urlStr = Ok res ->
  res_ok res = true ->
  resolved_filename E urlStr res = Ok filename ->
  res_body res = Some chunks ->
  (0 <= maxBytes < total_bytes chunks)%Z ->
  exists pre value post,
    chunks = pre ++ value :: post
    /\ (total_bytes pre <= maxBytes < total_bytes pre + Z.of_nat (length value))%Z
    /\ downloadUrlToTemp E urlStr maxBytes w
       = (Throw (HTTPException 413 (lit "Remote file exceeds 50MB limit.")),
          World (<[download_path E filename w := concat pre]> (scratch w))
                (S (drawn_names w)) (trace w ++ [Fetch urlStr; ReaderCancel])).
Proof.
  intros Hfetch Hok Hname Hbody [H0 Hlt].
  destruct (pump_beyond maxBytes (download_path E filename w) chunks 0 []
              (World (scratch w) (S (drawn_names w)) (trace w ++ [Fetch urlStr])))
    as (pre & value & post & Hsplit & H1 & H2 & Hpump); [lia | lia |].
  exists pre, value, post. split; [exact Hsplit|]. split; [lia|].
  unfold downloadUrlToTemp, bind, log, lift, fresh.
  rewrite Hfetch, Hok, Hname, Hbody. cbn [negb drawn_names scratch trace].
  unfold download_path in Hpump. cbn [drawn_names] in Hpump.
  rewrite Hpump. cbn [scratch drawn_names trace app].
  rewrite <- app_assoc. reflexivity.
Qed.

(** *** The URL route *)

Lemma convert_url_downloaded c urlStr w dl w1 :
  carries_url c urlStr ->
  is_http_url urlStr = true ->
  downloadUrlToTemp E urlStr MAX_FILE_BYTES w = (Ok dl, w1) ->
  convert_url E c w = url_dispatch E (fst (fst dl)) (snd (fst dl)) (snd dl) w1.
Proof.
  intros Hurl Hhttp Hdl. unfold convert_url.
  rewrite (bind_ok _ _ _ _ _ (Hurl w)), Hhttp. cbn [negb].
  rewrite (bind_ok _ _ _ _ _ Hdl). destruct dl as [[tmpPath filename] ct].
  reflexivity.
Qed.


Lemma ct_says_guess contentType e :
  ct_says contentType e = bool_decide (guessExtFromContentType contentType = Some e).
Proof.
  unfold ct_says. destruct contentType as [ct|].
  - destruct (truthy ct) eqn:Ht; [reflexivity|].
    destruct ct; [|discriminate]. reflexivity.
  - reflexivity.
Qed.

Lemma or_else_nil s : or_else s [] = s.
Proof. destruct s; reflexivity. Qed.

End Adapters.

End ServiceFacts.

(** ** The text adapter *)
Module TextProperties.
Import Js TxtLayout Service TxtLayoutFacts.

Lemma stub_glyphs_fit : glyphs_fit Stub.width.
Proof. intros c. reflexivity. Qed.

Lemma stub_width_monotone : width_monotone Stub.width.
Proof.
  intros a b. unfold Stub.width.
  apply Qmult_le_compat_r; [|discriminate].
  rewrite <- Zle_Qle, length_app. lia.
Qed.

(** C1. Whatever the bytes, every line that the text adapter lays out
    measures at most the usable width (612 - 2 * 50 points) at 12 points, and
    the body of the document consists of these lines. In particular a single
    word wider than the usable width is cut into consecutive fragments, each
    of which fits. The font is assumed to have no glyph wider than the usable
    width. *)
Theorem txt_lines_within_usable_width E data filename :
  glyphs_fit (widthOfTextAtSize E) ->
  let width := widthOfTextAtSize E in
  let lines := txt_lines width (utf8_decode E data) in
  Forall (fun l => (width l fontSize <= maxWidth)%Q) lines
  /\ (forall pg it,
        In pg (txt_pages E data filename) -> In it pg -> d_size it = fontSize ->
        In (d_text it) lines)
  /\ (forall w,
        forallb (fun c => negb (is_space c)) w = true ->
        ~ (width w fontSize <= maxWidth)%Q ->
        concat (txt_lines width w) = w
        /\ Forall (fun l => (width l fontSize <= maxWidth)%Q) (txt_lines width w)
        /\ (w <> [] -> (2 <= length (txt_lines width w))%nat)).
Proof.
  intros Hglyph width lines.
  assert (Hfits : forall t, Forall (fun l => fits width l = true) (txt_lines width t)
                            -> Forall (fun l => (width l fontSize <= maxWidth)%Q)
                                      (txt_lines width t)).
  { intros t H. eapply Forall_impl; [exact H|].
    intros l. unfold fits. apply Qle_bool_iff. }
  split; [apply Hfits, txt_lines_fit, Hglyph|]. split.
  - intros pg it Hpg Hit Hsize.
    destruct (txt_document_items width (utf8_decode E data) (basename E filename)
                pg it Hpg Hit) as [H|H]; [exact H|].
    rewrite Hsize in H. discriminate.
  - intros w Hword Hwide.
    assert (Hw : fits width w = false).
    { unfold fits. destruct (Qle_bool _ _) eqn:Hb; [|reflexivity].
      apply Qle_bool_iff in Hb. contradiction. }
    destruct (wide_word_fragments width Hglyph w Hword Hw) as (Hcat & Hfit & Hlen).
    split; [exact Hcat|]. split; [apply Hfits, Hfit | exact Hlen].
Qed.

Lemma txt_lines_within_usable_width_witness :
  Forall (fun l => (Stub.width l fontSize <= maxWidth)%Q)
         (txt_lines Stub.width (Stub.decode [x68; x69; x20; x68; x6f]%byte)).
Proof.
  exact (proj1 (txt_lines_within_usable_width Stub.offline
                  [x68; x69; x20; x68; x6f]%byte (lit "greeting.txt")
                  stub_glyphs_fit)).
Defined.

(** C7. A text continued with more text never makes a document with fewer
    pages. The font is assumed to measure no text narrower than a prefix of
    it. *)
Theorem txt_page_count_monotone E data data' filename filename' :
  width_monotone (widthOfTextAtSize E) ->
  (exists extra, utf8_decode E data' = utf8_decode E data ++ extra) ->
  (length (txt_pages E data filename) <= length (txt_pages E data' filename'))%nat.
Proof.
  intros Hmono [extra Hextra]. unfold txt_pages.
  rewrite !txt_document_pages, Hextra.
  apply le_n_S, iter_tick_mono, txt_lines_extend, Hmono.
Qed.

Lemma txt_page_count_monotone_witness :
  (length (txt_pages Stub.offline [x68; x69]%byte (lit "a.txt"))
   <= length (txt_pages Stub.offline [x68; x69; x20; x68; x6f]%byte (lit "a.txt")))%nat.
Proof.
  apply (txt_page_count_monotone Stub.offline); [exact stub_width_monotone|].
  exists (Stub.decode [x20; x68; x6f]%byte). reflexivity.
Defined.

End TextProperties.

(** ** The ZIP batch *)
Module BatchProperties.
Import Js Service ServiceFacts.

(** C2, as the code has it. The batch behaves as if the entries with another
    extension were not in the archive: they add nothing to the output and
    cannot make it fail. When it succeeds, the output has an entry at a path
    exactly when that path is the key of some input entry with extension
    .txt, .docx, .rtf, .html or .htm (whatever its case); and for such an
    entry whose path does not end in a slash, the key is the path with the
    extension replaced by .pdf. Entries with the same key share one output
    entry. *)
Theorem zip_batch_outputs E entries w :
  run_batch E entries w
  = run_batch E (List.filter (fun entry => supported (fst entry)) entries) w
  /\ forall out w',
       run_batch E entries w = (Ok out, w') ->
       (forall q : jstring,
           is_Some (out !! q)
           <-> exists path data, In (path, data) entries /\ entry_target path = Some q)
       /\ (forall path data,
             In (path, data) entries -> supported path = true ->
             endsWith path (lit "/") = false ->
             exists stem,
               path = stem ++ extname path /\ is_Some (out !! (stem ++ lit ".pdf"))).
Proof.
  split; [exact (batch_from_filter E ∅ entries w)|].
  intros out w' H. unfold run_batch in H. apply (batch_from_dom E ∅) in H.
  assert (Hkeys : forall q : jstring,
             is_Some (out !! q)
             <-> exists path data, In (path, data) entries /\ entry_target path = Some q).
  { intros q. rewrite <- elem_of_dom, H, dom_empty_L, <- elem_of_targets. set_solver. }
  split; [exact Hkeys|].
  intros path data Hin Hsup Hslash.
  rewrite supported_target in Hsup. apply bool_decide_eq_true in Hsup as [q Hq].
  destruct (entry_target_replaces path q Hq Hslash) as (stem & Hstem & ->).
  exists stem. split; [exact Hstem|]. apply Hkeys. eauto.
Qed.

Lemma zip_batch_outputs_witness :
  let entries := [(lit "notes.txt", [x68; x69]%byte); (lit "setup.exe", [x4d]%byte)] in
  exists out w',
    run_batch Stub.offline entries Stub.empty_world = (Ok out, w')
    /\ exists stem,
         lit "notes.txt" = stem ++ extname (lit "notes.txt")
         /\ is_Some (out !! (stem ++ lit ".pdf")).
Proof.
  intros entries.
  destruct (run_batch Stub.offline entries Stub.empty_world) as [[out|e] w'] eqn:Hrun;
    [|vm_compute in Hrun; discriminate].
  exists out, w'. split; [reflexivity|].
  destruct (zip_batch_outputs Stub.offline entries Stub.empty_world) as [_ H].
  destruct (H out w' Hrun) as [_ Hpdf].
  apply (Hpdf (lit "notes.txt") [x68; x69]%byte).
  - left. reflexivity.
  - vm_compute. reflexivity.
  - vm_compute. reflexivity.
Defined.

(** C2, as the spec has it, fails: two entries that the batch converts can
    leave one output entry. *)
Lemma zip_batch_one_entry_per_input_counterexample :
  let entries := [(lit "a.txt", [x68]%byte); (lit "a.rtf", [x69]%byte)] in
  ~ (forall out w',
        run_batch Stub.offline entries Stub.empty_world = (Ok out, w') ->
        size out = length (List.filter (fun entry => supported (fst entry)) entries)).
Proof.
  intros entries H.
  eassert (Hrun : run_batch Stub.offline entries Stub.empty_world = (Ok _, _))
    by (vm_compute; reflexivity).
  apply H in Hrun. vm_compute in Hrun. discriminate.
Qed.

(** C9. When two converted entries have the same key, the batch keeps what
    the later one was converted to (no entry after it having that key), and
    the output has fewer entries than the archive has convertible ones. *)
Theorem zip_batch_later_entry_overwrites
    E pre path1 data1 mid path2 data2 post w out w' q :
  let entries := pre ++ (path1, data1) :: mid ++ (path2, data2) :: post in
  run_batch E entries w = (Ok out, w') ->
  entry_target path1 = Some q ->
  entry_target path2 = Some q ->
  (forall path data, In (path, data) post -> entry_target path <> Some q) ->
  (exists pdf, entry_pdf E path2 data2 = Some pdf /\ out !! q = Some pdf)
  /\ (size out < length (List.filter (fun entry => supported (fst entry)) entries))%nat.
Proof.
  intros entries Hrun H1 H2 Hpost. split.
  - unfold run_batch, entries in Hrun.
    assert (Heq : pre ++ (path1, data1) :: mid ++ (path2, data2) :: post
                  = (pre ++ (path1, data1) :: mid) ++ (path2, data2) :: post)
      by (rewrite <- app_assoc; reflexivity).
    rewrite Heq in Hrun.
    exact (batch_from_last E _ _ _ _ _ _ _ _ q Hrun H2 Hpost).
  - unfold run_batch in Hrun. apply (batch_from_dom E ∅) in Hrun.
    rewrite dom_empty_L in Hrun.
    rewrite (left_id_L (∅ : gset jstring) (∪)) in Hrun.
    assert (Ht : targets entries
                 = targets pre ++ q :: targets mid ++ q :: targets post).
    { unfold entries. rewrite targets_app.
      change ((path1, data1) :: mid ++ (path2, data2) :: post)
        with ([(path1, data1)] ++ mid ++ [(path2, data2)] ++ post).
      rewrite !targets_app. unfold targets at 2 4. cbn [omap list_omap fst].
      rewrite H1, H2. reflexivity. }
    rewrite <- size_dom, Hrun, <- length_targets, Ht.
    apply size_list_to_set_dup.
Qed.

Lemma zip_batch_later_entry_overwrites_witness :
  let entries := [(lit "a.txt", [x68]%byte); (lit "a.rtf", [x69]%byte)] in
  exists out w',
    run_batch Stub.offline entries Stub.empty_world = (Ok out, w')
    /\ out !! lit "a.pdf" = entry_pdf Stub.offline (lit "a.rtf") [x69]%byte
    /\ (size out < 2)%nat.
Proof.
  intros entries.
  destruct (run_batch Stub.offline entries Stub.empty_world) as [[out|e] w'] eqn:Hrun;
    [|vm_compute in Hrun; discriminate].
  exists out, w'. split; [reflexivity|].
  destruct (zip_batch_later_entry_overwrites Stub.offline
              [] (lit "a.txt") [x68]%byte [] (lit "a.rtf") [x69]%byte []
              Stub.empty_world out w' (lit "a.pdf"))
    as [(pdf & Hpdf & Hout) Hsize].
  - exact Hrun.
  - vm_compute. reflexivity.
  - vm_compute. reflexivity.
  - intros ? ? [].
  - split; [congruence | exact Hsize].
Defined.

End BatchProperties.

(** ** The URL route *)
Module UrlProperties.
Import Js Service ServiceFacts.

Ltac decide_branch :=
  match goal with
  | |- context [if ?b then _ else _] =>
      let H := fresh in
      first [ assert (H : b = true) by (vm_compute; reflexivity)
            | assert (H : b = false) by (vm_compute; reflexivity) ];
      rewrite H; clear H
  end.



(** C3 evaluated on the code: a download with the extension .zip, whose
    Content-Type is a ZIP type or none that the table knows, is answered
    with the 415 of the last line of the route; the branch that would
    convert the archive is commented out. *)
Theorem url_zip_is_rejected E c urlStr w res filename chunks :
  carries_url c urlStr ->
  is_http_url urlStr = true ->
  fetch E urlStr = Ok res ->
  res_ok res = true ->
  resolved_filename E urlStr res = Ok filename ->
  res_body res = Some chunks ->
  (total_bytes chunks <= MAX_FILE_BYTES)%Z ->
  toLowerCase (extname filename) = lit ".zip" ->
  guessExtFromContentType (res_content_type res) = Some (lit ".zip")
  \/ guessExtFromContentType (res_content_type res) = None ->
  serve (convert_url E) c w
  = ({| status := 415; headers := [];
        resp_body := JsonError
          (lit "Unsupported remote type. Allowed: pdf, docx, txt, rtf, html, zip.") |},
     World (<[download_path E filename w := concat chunks]> (scratch w))
           (S (drawn_names w)) (trace w ++ [Fetch urlStr])).
Proof.
  intros Hurl Hhttp Hfetch Hok Hname Hbody Hle Hext Hct. unfold serve.
  rewrite (convert_url_downloaded E c urlStr w _ _ Hurl Hhttp
             (downloadUrlToTemp_within E urlStr _ w res filename chunks
                Hfetch Hok Hname Hbody Hle)).
  cbn [fst snd]. unfold url_dispatch. rewrite or_else_nil, !ct_says_guess, Hext.
  destruct Hct as [-> | ->]; repeat decide_branch; reflexivity.
Qed.

Lemma url_zip_is_rejected_witness :
  let E := Stub.serving (Some (lit "application/zip")) [[x50; x4b]%byte] in
  status (fst (serve (convert_url E) (Stub.url_request (lit "https://h.example/docs.zip"))
                     Stub.empty_world)) = 415%Z.
Proof.
  intros E.
  rewrite (url_zip_is_rejected E (Stub.url_request (lit "https://h.example/docs.zip"))
             (lit "https://h.example/docs.zip") Stub.empty_world
             {| res_ok := true; res_status := 200;
                res_content_type := Some (lit "application/zip");
                res_content_disposition := None;
                res_body := Some [[x50; x4b]%byte] |}
             (lit "docs.zip") [[x50; x4b]%byte]).
  - reflexivity.
  - intros w. reflexivity.
  - reflexivity.
  - reflexivity.
  - reflexivity.
  - vm_compute. reflexivity.
  - reflexivity.
  - vm_compute. discriminate.
  - vm_compute. reflexivity.
  - left. vm_compute. reflexivity.
Defined.

(** C6 evaluated on the code: a download named with the extension .html
    whose Content-Type is text/plain goes to the text adapter, not to the
    HTML renderer: the route tests the Content-Type of an earlier branch
    before the extension of a later one. *)
Theorem url_content_type_preempts_extension E c urlStr w res filename chunks :
  carries_url c urlStr ->
  is_http_url urlStr = true ->
  fetch E urlStr = Ok res ->
  res_ok res = true ->
  resolved_filename E urlStr res = Ok filename ->
  res_body res = Some chunks ->
  (total_bytes chunks <= MAX_FILE_BYTES)%Z ->
  toLowerCase (extname filename) = lit ".html" ->
  guessExtFromContentType (res_content_type res) = Some (lit ".txt") ->
  exists r w',
    convert_url E c w = (Ok r, w')
    /\ resp_body r = FileBody (pdf_save E (txt_pages E (concat chunks) filename))
    /\ trace w' = trace w ++ [Fetch urlStr; PdfLibRender].
Proof.
  intros Hurl Hhttp Hfetch Hok Hname Hbody Hle Hext Hct.
  rewrite (convert_url_downloaded E c urlStr w _ _ Hurl Hhttp
             (downloadUrlToTemp_within E urlStr _ w res filename chunks
                Hfetch Hok Hname Hbody Hle)).
  cbn [fst snd]. unfold url_dispatch. rewrite or_else_nil, !ct_says_guess, Hext, Hct.
  do 2 decide_branch.
  unfold bind at 1. unfold read_file at 1. cbn [scratch]. rewrite lookup_insert_eq.
  unfold bind at 1. rewrite txtToPdf_toPath_run. cbv zeta.
  unfold streamFile, bind, read_file. cbn [scratch drawn_names trace].
  rewrite lookup_insert_eq.
  eexists _, _. split; [reflexivity|]. split; [reflexivity|].
  cbn [trace]. rewrite <- app_assoc. reflexivity.
Qed.

Lemma url_content_type_preempts_extension_witness :
  let E := Stub.serving (Some (lit "text/plain")) [[x3c; x62; x3e]%byte] in
  exists r w',
    convert_url E (Stub.url_request (lit "https://h.example/index.html"))
                Stub.empty_world = (Ok r, w')
    /\ trace w' = [Fetch (lit "https://h.example/index.html"); PdfLibRender].
Proof.
  intros E.
  destruct (url_content_type_preempts_extension E
             (Stub.url_request (lit "https://h.example/index.html"))
             (lit "https://h.example/index.html") Stub.empty_world
             {| res_ok := true; res_status := 200;
                res_content_type := Some (lit "text/plain");
                res_content_disposition := None;
                res_body := Some [[x3c; x62; x3e]%byte] |}
             (lit "index.html") [[x3c; x62; x3e]%byte])
    as (r & w' & Hrun & _ & Htrace).
  - intros w. reflexivity.
  - reflexivity.
  - reflexivity.
  - reflexivity.
  - vm_compute. reflexivity.
  - reflexivity.
  - vm_compute. discriminate.
  - vm_compute. reflexivity.
  - vm_compute. reflexivity.
  - exists r, w'. split; [exact Hrun | exact Htrace].
Defined.



End UrlProperties.

(** ** Uploads *)
Module UploadProperties.
Import Js Service ServiceFacts.

(** C4. An uploaded file of more than 50 * 1024 * 1024 bytes is answered
    with 413 by each of the five routes that take an upload, and the world is
    as it was: no adapter has run and no temp file has been written. *)
Theorem oversized_upload_rejected E c form file w :
  req_form c = Some form ->
  form_get form (lit "file") = Some (FormFile file) ->
  (50 * 1024 * 1024 < f_size file)%Z ->
  Forall (fun handler =>
            handler c w
            = (Throw (HTTPException 413 (lit "File too large. Max size is 50MB.")), w)
            /\ serve handler c w
               = ({| status := 413; headers := [];
                     resp_body := JsonError (lit "File too large. Max size is 50MB.") |},
                  w))
         [convert_txt E; convert_rtf E; convert_docx E; convert_html E; convert_zip E].
Proof.
  intros Hform Hfile Hsize.
  assert (Hlimit : (MAX_FILE_BYTES <? f_size file)%Z = true)
    by (apply Z.ltb_lt; exact Hsize).
  assert (Hread : readFormFile c (lit "file") w = (Ok file, w)).
  { unfold readFormFile, formData, bind. rewrite Hform. unfold ret.
    rewrite Hfile. reflexivity. }
  assert (Hguard : forall w0, enforceFileLimit file w0
            = (Throw (HTTPException 413 (lit "File too large. Max size is 50MB.")), w0)).
  { intros w0. unfold enforceFileLimit. rewrite Hlimit. reflexivity. }
  assert (Hserve : forall handler : request -> M response,
            handler c w
            = (Throw (HTTPException 413 (lit "File too large. Max size is 50MB.")), w) ->
            handler c w
            = (Throw (HTTPException 413 (lit "File too large. Max size is 50MB.")), w)
            /\ serve handler c w
               = ({| status := 413; headers := [];
                     resp_body := JsonError (lit "File too large. Max size is 50MB.") |},
                  w)).
  { intros handler H. split; [exact H|]. unfold serve. rewrite H. reflexivity. }
  assert (Hform' : formData c w = (Ok form, w))
    by (unfold formData; rewrite Hform; reflexivity).
  assert (Htxt : convert_txt E c w
            = (Throw (HTTPException 413 (lit "File too large. Max size is 50MB.")), w)).
  { unfold convert_txt. erewrite bind_ok by exact Hread. apply bind_throw, Hguard. }
  assert (Hrtf : convert_rtf E c w
            = (Throw (HTTPException 413 (lit "File too large. Max size is 50MB.")), w)).
  { unfold convert_rtf. erewrite bind_ok by exact Hread. apply bind_throw, Hguard. }
  assert (Hdocx : convert_docx E c w
            = (Throw (HTTPException 413 (lit "File too large. Max size is 50MB.")), w)).
  { unfold convert_docx. erewrite bind_ok by exact Hread. apply bind_throw, Hguard. }
  assert (Hhtml : convert_html E c w
            = (Throw (HTTPException 413 (lit "File too large. Max size is 50MB.")), w)).
  { unfold convert_html. erewrite bind_ok by exact Hform'. apply bind_throw.
    unfold html_source. rewrite Hfile. apply bind_throw, Hguard. }
  assert (Hzip : convert_zip E c w
            = (Throw (HTTPException 413 (lit "File too large. Max size is 50MB.")), w)).
  { unfold convert_zip. erewrite bind_ok by exact Hread. apply bind_throw, Hguard. }
  repeat (apply List.Forall_cons; [apply Hserve; assumption|]).
  apply List.Forall_nil.
Qed.

Lemma oversized_upload_rejected_witness :
  let c := Stub.upload (lit "huge.txt") (50 * 1024 * 1024 + 1) [] in
  serve (convert_txt Stub.offline) c Stub.empty_world
  = ({| status := 413; headers := [];
        resp_body := JsonError (lit "File too large. Max size is 50MB.") |},
     Stub.empty_world).
Proof.
  intros c.
  pose proof (oversized_upload_rejected Stub.offline c _ _ Stub.empty_world
                eq_refl eq_refl eq_refl) as H.
  apply Forall_inv in H. exact (proj2 H).
Defined.

(** C10. When the form has a file under [file], the HTML route takes its
    input from that file alone: the request answers as the request that
    holds nothing but the file, so two requests with the same file and
    different [html] fields hand the same HTML to the renderer and get the
    same answer. *)
Theorem html_upload_ignores_html_field E c1 c2 form1 form2 file w :
  req_form c1 = Some form1 ->
  req_form c2 = Some form2 ->
  form_get form1 (lit "file") = Some (FormFile file) ->
  form_get form2 (lit "file") = Some (FormFile file) ->
  html_source E form1 w = html_source E [(lit "file", FormFile file)] w
  /\ html_source E form1 w = html_source E form2 w
  /\ serve (convert_html E) c1 w = serve (convert_html E) c2 w.
Proof.
  intros Hc1 Hc2 H1 H2.
  assert (Hsrc : forall form,
            form_get form (lit "file") = Some (FormFile file) ->
            html_source E form = html_source E [(lit "file", FormFile file)]).
  { intros form H. unfold html_source. rewrite H. reflexivity. }
  split; [rewrite (Hsrc form1 H1); reflexivity|].
  split; [rewrite (Hsrc form1 H1), (Hsrc form2 H2); reflexivity|].
  assert (Hrun : convert_html E c1 w = convert_html E c2 w).
  { unfold convert_html.
    erewrite (bind_ok (formData c1)) by (unfold formData; rewrite Hc1; reflexivity).
    erewrite (bind_ok (formData c2)) by (unfold formData; rewrite Hc2; reflexivity).
    rewrite (Hsrc form1 H1), (Hsrc form2 H2). reflexivity. }
  unfold serve. rewrite Hrun. reflexivity.
Qed.

Lemma html_upload_ignores_html_field_witness :
  let page := {| f_name := lit "page.html"; f_size := 4; f_bytes := [x3c; x70; x3e; x78]%byte |} in
  let request html :=
    {| req_content_type := Some (lit "multipart/form-data; boundary=x");
       req_form := Some [(lit "html", FormString html); (lit "file", FormFile page)];
       req_json_url := None |} in
  serve (convert_html Stub.offline) (request (lit "<p>one</p>")) Stub.empty_world
  = serve (convert_html Stub.offline) (request (lit "<p>two</p>")) Stub.empty_world.
Proof.
  intros page request.
  exact (proj2 (proj2 (html_upload_ignores_html_field Stub.offline
                         (request (lit "<p>one</p>")) (request (lit "<p>two</p>"))
                         _ _ page Stub.empty_world
                         eq_refl eq_refl eq_refl eq_refl))).
Defined.

End UploadProperties.

(** ** More on the text adapter's layout *)
Module LayoutExtras.
Import Js TxtLayout Views TxtLayoutFacts.

Section Lines.

Variable width : text -> Q -> Q.

(** *** No blank line *)

Lemma push_if_truthy s ls :
  Forall (fun l => truthy l = true) ls ->
  Forall (fun l => truthy l = true) (push_if s ls).
Proof.
  intros H. unfold push_if. destruct (truthy s) eqn:Hs; [|exact H].
  apply Forall_app. split; [exact H|]. constructor; [exact Hs | constructor].
Qed.

Lemma chunk_fold_truthy w st :
  Forall (fun l => truthy l = true) (lines st) ->
  Forall (fun l => truthy l = true) (lines (fold_left (chunk_step width) w st)).
Proof.
  revert st. induction w as [|ch w IH]; intros st H; [exact H|].
  simpl. apply IH. unfold chunk_step.
  destruct (fits width _); simpl; [exact H | apply push_if_truthy, H].
Qed.

Lemma wrap_fold_truthy ws st :
  Forall (fun l => truthy l = true) (lines st) ->
  Forall (fun l => truthy l = true) (lines (fold_left (wrap_step width) ws st)).
Proof.
  revert st. induction ws as [|w ws IH]; intros st H; [exact H|].
  simpl. apply IH. unfold wrap_step.
  destruct (fits width _); [exact H|].
  destruct (negb (fits width w)).
  - apply chunk_fold_truthy. simpl. apply push_if_truthy, H.
  - simpl. apply push_if_truthy, H.
Qed.

(** The text adapter never lays out an empty line. *)
Theorem txt_lines_never_empty t :
  Forall (fun l => l <> []) (txt_lines width t).
Proof.
  assert (H : Forall (fun l => truthy l = true) (txt_lines width t)).
  { unfold txt_lines. apply push_if_truthy. unfold wrap_words.
    apply wrap_fold_truthy. constructor. }
  eapply Forall_impl; [exact H|]. intros l Hl ->. discriminate.
Qed.

(** *** Text without a word *)

Lemma split_from_blank b t :
  forallb is_space t = true -> Forall (fun w => w = []) (split_from b t).
Proof.
  revert b. induction t as [|c t IH]; intros b H.
  - repeat constructor.
  - simpl in H. apply andb_true_iff in H as [Hc Ht].
    simpl. rewrite Hc. destruct b; [apply IH, Ht|].
    constructor; [reflexivity | apply IH, Ht].
Qed.

Lemma wrap_step_empty_word ls : wrap_step width (Wrap ls []) [] = Wrap ls [].
Proof.
  unfold wrap_step. simpl. destruct (fits width []); reflexivity.
Qed.

Lemma wrap_fold_empty_words ws ls :
  Forall (fun w => w = []) ws ->
  fold_left (wrap_step width) ws (Wrap ls []) = Wrap ls [].
Proof.
  induction 1 as [|w ws -> _ IH]; [reflexivity|].
  simpl. rewrite wrap_step_empty_word. exact IH.
Qed.

(** A text of white space alone (the empty text included) has no line, and
    its document is one page that holds the footer and nothing else. *)
Theorem blank_text_document t footer :
  forallb is_space t = true ->
  txt_lines width t = []
  /\ txt_document width t footer = [[footer_item width footer]].
Proof.
  intros Hblank.
  assert (Hlines : txt_lines width t = []).
  { unfold txt_lines, wrap_words. rewrite split_ws_replace_crlf. unfold split_ws.
    rewrite (wrap_fold_empty_words _ [] (split_from_blank false t Hblank)).
    reflexivity. }
  split; [exact Hlines|].
  unfold txt_document. rewrite Hlines. reflexivity.
Qed.

(** *** Nothing but white space is lost *)

Lemma filter_concat_split b t :
  List.filter not_space (concat (split_from b t)) = List.filter not_space t.
Proof.
  revert b. induction t as [|c t IH]; intros b; [reflexivity|].
  simpl. unfold not_space at 2. destruct (is_space c) eqn:Hc; simpl.
  - destruct b; simpl; apply IH.
  - specialize (IH false).
    destruct (split_from false t) as [|f fs] eqn:Hs.
    + exfalso. exact (split_from_nonempty _ _ Hs).
    + simpl in *. unfold not_space at 1. rewrite Hc. simpl. f_equal. exact IH.
Qed.

Lemma wrap_step_content st w :
  List.filter not_space
    (concat (push_if (current (wrap_step width st w)) (lines (wrap_step width st w))))
  = List.filter not_space (concat (push_if (current st) (lines st)))
    ++ List.filter not_space w.
Proof.
  unfold wrap_step.
  destruct (fits width _).
  - simpl. rewrite !concat_push_if.
    destruct (truthy (current st)) eqn:Hc.
    + rewrite !List.filter_app. simpl. rewrite <- app_assoc. reflexivity.
    + destruct (current st); [|discriminate].
      rewrite !List.filter_app. simpl. rewrite app_nil_r. reflexivity.
  - destruct (negb (fits width w)).
    + rewrite chunk_fold_concat. simpl. rewrite List.filter_app.
      change (push_if [] ?x) with x. reflexivity.
    + simpl. rewrite concat_push_if, List.filter_app. reflexivity.
Qed.

Lemma wrap_fold_content ws st :
  List.filter not_space
    (concat (push_if (current (fold_left (wrap_step width) ws st))
                     (lines (fold_left (wrap_step width) ws st))))
  = List.filter not_space (concat (push_if (current st) (lines st)))
    ++ List.filter not_space (concat ws).
Proof.
  revert st. induction ws as [|w ws IH]; intros st; simpl.
  - rewrite app_nil_r. reflexivity.
  - rewrite IH, wrap_step_content, List.filter_app, <- app_assoc. reflexivity.
Qed.

(** The lines hold the characters of the text that are not white space, all
    of them and in their order, whatever the font measures. *)
Theorem txt_lines_keep_content t :
  List.filter not_space (concat (txt_lines width t)) = List.filter not_space t.
Proof.
  unfold txt_lines, wrap_words. rewrite wrap_fold_content. simpl.
  rewrite split_ws_replace_crlf. apply filter_concat_split.
Qed.

End Lines.

Lemma blank_text_document_witness :
  txt_document Stub.width [32; 9; 13; 10]%N (lit "empty.txt")
  = [[footer_item Stub.width (lit "empty.txt")]].
Proof.
  exact (proj2 (blank_text_document Stub.width [32; 9; 13; 10]%N (lit "empty.txt")
                  eq_refl)).
Defined.

(** *** Forty-four lines to a page *)

Lemma tick_first p :
  tick (p, (snd pageSize - margin)%Q) = (p, (snd pageSize - margin - lineHeight)%Q).
Proof. reflexivity. Qed.

(** From the first line of a page, 44 more lines lead to the first line of
    the next page. *)
Lemma tick_page p :
  Nat.iter 44 tick (p, (snd pageSize - margin - lineHeight)%Q)
  = (S p, (snd pageSize - margin - lineHeight)%Q).
Proof. vm_compute. reflexivity. Qed.

Lemma tick_within_page j p :
  (j < 44)%nat ->
  fst (Nat.iter j tick (p, (snd pageSize - margin - lineHeight)%Q)) = p.
Proof.
  intros Hj.
  do 44 (destruct j as [|j]; [vm_compute; reflexivity|]). lia.
Qed.

Lemma tick_pages_full q p :
  Nat.iter (44 * q) tick (p, (snd pageSize - margin - lineHeight)%Q)
  = ((q + p)%nat, (snd pageSize - margin - lineHeight)%Q).
Proof.
  induction q as [|q IH]; [reflexivity|].
  replace (44 * S q)%nat with (44 + 44 * q)%nat by lia.
  rewrite Nat.iter_add, IH, tick_page. reflexivity.
Qed.

Lemma tick_lines n :
  fst (Nat.iter (S n) tick (0%nat, (snd pageSize - margin)%Q)) = (n / 44)%nat.
Proof.
  rewrite Nat.iter_succ_r, tick_first.
  assert (Hj : (n mod 44 < 44)%nat) by (apply Nat.mod_upper_bound; discriminate).
  pose proof (Nat.div_mod_eq n 44) as Hn.
  revert Hj Hn. generalize (n / 44)%nat (n mod 44)%nat. intros q j Hj ->.
  rewrite Nat.add_comm, Nat.iter_add, tick_pages_full, Nat.add_0_r.
  apply tick_within_page, Hj.
Qed.

(** The document has one page for every 44 lines begun, and one page when
    the text has no line. *)
Theorem txt_document_page_count width t footer :
  length (txt_document width t footer) = pages_for (length (txt_lines width t)).
Proof.
  rewrite txt_document_pages.
  destruct (length (txt_lines width t)) as [|n]; [reflexivity|].
  rewrite tick_lines. reflexivity.
Qed.

(** *** Where the lines and the footer are drawn *)

Lemma layout_step_geometry st line :
  (y st <= snd pageSize - margin)%Q ->
  Forall (Forall body_item) (finished st ++ [cur_page st]) ->
  (y (layout_step st line) <= snd pageSize - margin)%Q
  /\ Forall (Forall body_item)
            (finished (layout_step st line) ++ [cur_page (layout_step st line)]).
Proof.
  intros Hy H. unfold layout_step.
  set (st1 := if page_full st then new_page st else st).
  assert (H1 : (margin + lineHeight <= y st1)%Q /\ (y st1 <= snd pageSize - margin)%Q
               /\ Forall (Forall body_item) (finished st1 ++ [cur_page st1])).
  { subst st1. unfold page_full. destruct (Qle_bool _ _) eqn:Hfull; cbn [negb].
    - apply Qle_bool_iff in Hfull. auto.
    - cbn [new_page y finished cur_page].
      split; [unfold margin, lineHeight, fontSize, pageSize; cbn [snd]; lra|].
      split; [lra|]. apply Forall_app. split; [exact H | repeat constructor]. }
  destruct H1 as (Hlow & Hhigh & Hitems). cbn [y finished cur_page]. split.
  - unfold margin, lineHeight, fontSize, pageSize in *. cbn [snd] in *. lra.
  - apply Forall_app in Hitems as [Hf Hc]. apply Forall_app. split; [exact Hf|].
    constructor; [|constructor]. apply Forall_inv in Hc.
    apply Forall_app. split; [exact Hc|]. constructor; [|constructor].
    unfold body_item. simpl. auto.
Qed.

Lemma layout_fold_geometry ls st :
  (y st <= snd pageSize - margin)%Q ->
  Forall (Forall body_item) (finished st ++ [cur_page st]) ->
  Forall (Forall body_item)
         (finished (fold_left layout_step ls st)
          ++ [cur_page (fold_left layout_step ls st)]).
Proof.
  revert st. induction ls as [|l ls IH]; intros st Hy H; [exact H|].
  simpl. destruct (layout_step_geometry st l Hy H) as [Hy' H'].
  apply IH; assumption.
Qed.

(** The first page ends with the footer, in gray at 9 points and 20 points
    from the bottom; everything else in the document is a line of the body,
    drawn in black at 12 points at the left margin, never lower than one
    line above the bottom margin and never higher than the top margin. No
    other page has a footer. *)
Theorem txt_document_geometry width t footer :
  exists body rest,
    txt_document width t footer = (body ++ [footer_item width footer]) :: rest
    /\ Forall body_item body
    /\ Forall (Forall body_item) rest.
Proof.
  unfold txt_document, layout_lines.
  pose proof (layout_fold_geometry (txt_lines width t)
                (Layout [] [] (snd pageSize - margin)%Q)) as H.
  cbn [y finished cur_page app] in H.
  specialize (H ltac:(lra) ltac:(repeat constructor)).
  destruct (finished _ ++ [cur_page _]) as [|first rest] eqn:Hpages.
  - apply app_eq_nil in Hpages as [_ Hnil]. discriminate.
  - apply Forall_cons_iff in H as [Hfirst Hrest].
    exists first, rest. split; [reflexivity|]. split; assumption.
Qed.

End LayoutExtras.


(** ** More on format detection and on the name of a download *)
Module FormatExtras.
Import Js Service Views JsFacts.

(** *** The content-type table *)

(** The table answers with one of six extensions or with nothing. *)
Lemma guessExt_in_table ct e :
  guessExtFromContentType ct = Some e -> In e table_exts.
Proof.
  unfold guessExtFromContentType, table_exts.
  destruct ct as [ct|]; [|discriminate].
  destruct (negb (truthy ct)); [discriminate|].
  repeat (destruct (seq _ _); [intros [= <-]; simpl; tauto|]).
  discriminate.
Qed.


Lemma lower_char_idem c : lower_char (lower_char c) = lower_char c.
Proof.
  unfold lower_char.
  destruct ((65 <=? c) && (c <=? 90))%N eqn:H; [|rewrite H; reflexivity].
  apply andb_true_iff in H as [H1 H2]. apply N.leb_le in H1, H2.
  destruct ((65 <=? c + 32) && (c + 32 <=? 90))%N eqn:H'; [|reflexivity].
  apply andb_true_iff in H' as [_ H']. apply N.leb_le in H'. lia.
Qed.

Lemma toLowerCase_idem s : toLowerCase (toLowerCase s) = toLowerCase s.
Proof.
  unfold toLowerCase. rewrite map_map. apply map_ext. intros c. apply lower_char_idem.
Qed.

Lemma lower_char_fixes c : ((c <? 65) || (90 <? c))%N = true -> lower_char c = c.
Proof.
  intros H. unfold lower_char.
  destruct ((65 <=? c) && (c <=? 90))%N eqn:Hc; [|reflexivity].
  apply andb_true_iff in Hc as [H1 H2]. apply N.leb_le in H1, H2.
  apply orb_true_iff in H as [H|H]; apply N.ltb_lt in H; lia.
Qed.

Lemma lower_char_preimage c d :
  ((d <? 65) || (90 <? d))%N = true -> ((d <? 97) || (122 <? d))%N = true ->
  (lower_char c =? d)%N = (c =? d)%N.
Proof.
  intros Hd Hd'. unfold lower_char.
  destruct ((65 <=? c) && (c <=? 90))%N eqn:Hc; [|reflexivity].
  apply andb_true_iff in Hc as [H1 H2]. apply N.leb_le in H1, H2.
  apply orb_true_iff in Hd as [Hd|Hd]; apply N.ltb_lt in Hd;
    apply orb_true_iff in Hd' as [Hd'|Hd']; apply N.ltb_lt in Hd';
    destruct (N.eqb_spec (c + 32) d), (N.eqb_spec c d); try reflexivity; lia.
Qed.

Lemma letter_not_space c : (14 <= c < 160)%N -> c <> 32%N -> is_space c = false.
Proof.
  intros Hc H32. unfold is_space.
  replace (c <=? 13)%N with false by (symmetry; apply N.leb_gt; lia).
  replace (8192 <=? c)%N with false by (symmetry; apply N.leb_gt; lia).
  repeat match goal with
         | |- context [(c =? ?k)%N] =>
             replace (c =? k)%N with false by (symmetry; apply N.eqb_neq; lia)
         end.
  rewrite andb_false_r. reflexivity.
Qed.

Lemma is_space_lower c : is_space (lower_char c) = is_space c.
Proof.
  unfold lower_char.
  destruct ((65 <=? c) && (c <=? 90))%N eqn:Hc; [|reflexivity].
  apply andb_true_iff in Hc as [H1 H2]. apply N.leb_le in H1, H2.
  rewrite (letter_not_space (c + 32)), (letter_not_space c) by lia. reflexivity.
Qed.

Lemma take_while_map {A} (f : A -> A) (p : A -> bool) l :
  (forall x, p (f x) = p x) ->
  take_while p (map f l) = map f (take_while p l).
Proof.
  intros H. induction l as [|x l IH]; [reflexivity|].
  simpl. rewrite H. destruct (p x); [simpl; rewrite IH|]; reflexivity.
Qed.

Lemma drop_while_map {A} (f : A -> A) (p : A -> bool) l :
  (forall x, p (f x) = p x) ->
  drop_while p (map f l) = map f (drop_while p l).
Proof.
  intros H. induction l as [|x l IH]; [reflexivity|].
  simpl. rewrite H. destruct (p x); [exact IH | reflexivity].
Qed.

Lemma trim_lower s : trim (toLowerCase s) = toLowerCase (trim s).
Proof.
  unfold trim, toLowerCase.
  rewrite (drop_while_map _ _ _ is_space_lower), <- map_rev.
  rewrite (drop_while_map _ _ _ is_space_lower), map_rev. reflexivity.
Qed.

Lemma before_semicolon_lower s :
  before_semicolon (toLowerCase s) = toLowerCase (before_semicolon s).
Proof.
  unfold before_semicolon, toLowerCase. apply take_while_map.
  intros c. rewrite (lower_char_preimage c 59) by reflexivity. reflexivity.
Qed.

Lemma drop_while_blank_app {A} (p : A -> bool) ws l :
  forallb p ws = true -> drop_while p (ws ++ l) = drop_while p l.
Proof.
  induction ws as [|c ws IH]; intros H; [reflexivity|].
  simpl in H. apply andb_true_iff in H as [Hc Hws]. simpl. rewrite Hc. auto.
Qed.

Lemma drop_while_app_blank {A} (p : A -> bool) l ws :
  forallb p ws = true ->
  drop_while p (l ++ ws) = if forallb p l then [] else drop_while p l ++ ws.
Proof.
  intros Hws. induction l as [|c l IH]; simpl.
  - rewrite <- (app_nil_r ws), drop_while_blank_app by exact Hws. reflexivity.
  - destruct (p c); [exact IH | reflexivity].
Qed.

Lemma drop_while_all {A} (p : A -> bool) l :
  forallb p l = true -> drop_while p l = [].
Proof.
  induction l as [|c l IH]; [reflexivity|].
  simpl. intros H. apply andb_true_iff in H as [-> Hl]. auto.
Qed.

Lemma forallb_rev {A} (p : A -> bool) l : forallb p (rev l) = forallb p l.
Proof.
  induction l as [|c l IH]; [reflexivity|].
  simpl. rewrite forallb_app, IH. simpl. rewrite andb_true_r. apply andb_comm.
Qed.

(** White space on either side does not count. *)
Lemma trim_padded ws s ws' :
  forallb is_space ws = true -> forallb is_space ws' = true ->
  trim (ws ++ s ++ ws') = trim s.
Proof.
  intros Hws Hws'. unfold trim.
  rewrite (drop_while_blank_app _ _ _ Hws), (drop_while_app_blank _ _ _ Hws').
  destruct (forallb is_space s) eqn:Hs.
  - rewrite (drop_while_all _ _ Hs). reflexivity.
  - rewrite rev_app_distr.
    rewrite drop_while_blank_app by (rewrite forallb_rev; exact Hws').
    reflexivity.
Qed.

Lemma before_semicolon_app s params :
  forallb (fun c => negb (c =? 59)%N) s = true ->
  before_semicolon (s ++ 59%N :: params) = s.
Proof.
  unfold before_semicolon. induction s as [|c s IH]; intros H; [reflexivity|].
  simpl in H. apply andb_true_iff in H as [Hc Hs]. simpl. rewrite Hc, IH by exact Hs.
  reflexivity.
Qed.

Lemma before_semicolon_none s :
  forallb (fun c => negb (c =? 59)%N) s = true -> before_semicolon s = s.
Proof.
  unfold before_semicolon. induction s as [|c s IH]; intros H; [reflexivity|].
  simpl in H. apply andb_true_iff in H as [Hc Hs]. simpl. rewrite Hc, IH by exact Hs.
  reflexivity.
Qed.

Lemma blank_no_semicolon ws :
  forallb is_space ws = true -> forallb (fun c => negb (c =? 59)%N) ws = true.
Proof.
  induction ws as [|c ws IH]; [reflexivity|].
  simpl. intros H. apply andb_true_iff in H as [Hc Hws]. rewrite (IH Hws), andb_true_r.
  destruct (N.eqb_spec c 59) as [->|]; [discriminate | reflexivity].
Qed.

Lemma truthy_lower s : truthy (toLowerCase s) = truthy s.
Proof. destruct s; reflexivity. Qed.

(** The answer of the table depends on the media type alone: its case, the
    white space around it and the parameters after the semicolon play no
    part. *)
Theorem guessExt_ignores_case_space_params ws mediaType ws' params :
  forallb is_space ws = true ->
  forallb is_space ws' = true ->
  forallb (fun c => negb (c =? 59)%N) mediaType = true ->
  guessExtFromContentType (Some (ws ++ mediaType ++ ws' ++ 59%N :: params))
  = guessExtFromContentType (Some (toLowerCase mediaType)).
Proof.
  intros Hws Hws' Hm.
  assert (Hall : forallb (fun c => negb (c =? 59)%N) (ws ++ mediaType ++ ws') = true).
  { rewrite !forallb_app, Hm, !blank_no_semicolon by assumption. reflexivity. }
  assert (Hleft : toLowerCase (trim (before_semicolon
                     (ws ++ mediaType ++ ws' ++ 59%N :: params)))
                  = toLowerCase (trim mediaType)).
  { replace (ws ++ mediaType ++ ws' ++ 59%N :: params)
      with ((ws ++ mediaType ++ ws') ++ 59%N :: params)
      by (rewrite <- !app_assoc; reflexivity).
    rewrite (before_semicolon_app _ _ Hall), trim_padded by assumption. reflexivity. }
  assert (Hright : toLowerCase (trim (before_semicolon (toLowerCase mediaType)))
                   = toLowerCase (trim mediaType)).
  { rewrite before_semicolon_lower, (before_semicolon_none _ Hm), trim_lower.
    apply toLowerCase_idem. }
  unfold guessExtFromContentType. rewrite Hleft, Hright, truthy_lower.
  assert (Ht : truthy (ws ++ mediaType ++ ws' ++ 59%N :: params) = true).
  { apply TxtLayoutFacts.truthy_app_r, TxtLayoutFacts.truthy_app_r,
      TxtLayoutFacts.truthy_app_r. reflexivity. }
  rewrite Ht. cbn [negb].
  destruct (truthy mediaType) eqn:Hmt; [reflexivity|].
  destruct mediaType; [reflexivity | discriminate].
Qed.

Lemma guessExt_ignores_case_space_params_witness :
  guessExtFromContentType (Some (lit " Text/HTML ; charset=utf-8")) = Some (lit ".html").
Proof.
  exact (guessExt_ignores_case_space_params (lit " ") (lit "Text/HTML") (lit " ")
           (lit " charset=utf-8") eq_refl eq_refl eq_refl).
Defined.

End FormatExtras.

(** ** More on the name and the extension of a download *)
Module NameExtras.
Import Js Service Views JsFacts FormatExtras.

Lemma take_while_Forall {A} (p : A -> bool) l :
  Forall (fun x => p x = true) (take_while p l).
Proof.
  induction l as [|x l IH]; [constructor|].
  simpl. destruct (p x) eqn:Hx; constructor; assumption.
Qed.

Lemma take_while_keeps {A} (P : A -> Prop) (p : A -> bool) l :
  Forall P l -> Forall P (take_while p l).
Proof.
  induction 1 as [|x l Hx Hl IH]; [constructor|].
  simpl. destruct (p x); constructor; assumption.
Qed.

(** An extension is empty or a dot followed by characters that are not
    slashes. *)
Lemma extname_shape p :
  extname p = []
  \/ exists e, extname p = 46%N :: e /\ Forall (fun c => c <> 47%N) e.
Proof.
  unfold extname.
  set (comp := last_component_rev p).
  set (ext_rev := take_while (fun c => negb (is_dot c)) comp).
  assert (Hext : Forall (fun c => c <> 47%N) (rev ext_rev)).
  { apply Forall_rev. apply take_while_keeps.
    unfold comp, last_component_rev.
    eapply Forall_impl; [apply take_while_Forall|].
    intros c Hc ->. discriminate. }
  destruct (drop_while _ comp) as [|d [|d' pre]]; [left; reflexivity ..|].
  destruct (_ && _); [left; reflexivity|].
  right. eauto.
Qed.

Lemma lower_keeps_slash_out e :
  Forall (fun c => c <> 47%N) e -> Forall (fun c => c <> 47%N) (toLowerCase e).
Proof.
  intros H. unfold toLowerCase. apply Forall_map.
  eapply Forall_impl; [exact H|]. intros c Hc Heq. apply Hc.
  apply N.eqb_eq. rewrite <- (lower_char_preimage c 47) by reflexivity.
  apply N.eqb_eq. exact Heq.
Qed.

Lemma lowered_extname_shaped p :
  truthy (extname p) = true -> ext_shaped (toLowerCase (extname p)).
Proof.
  intros Ht. destruct (extname_shape p) as [H|(e & H & Hslash)]; rewrite H in *.
  - discriminate.
  - split; [exists (toLowerCase e); reflexivity|].
    split; [apply toLowerCase_idem|].
    apply lower_keeps_slash_out. constructor; [discriminate | exact Hslash].
Qed.

Lemma table_ext_shaped ct e : guessExtFromContentType ct = Some e -> ext_shaped e.
Proof.
  intros H. apply guessExt_in_table in H. unfold table_exts in H. simpl in H.
  repeat (destruct H as [<-|H];
          [split; [eexists; reflexivity|];
           split; [reflexivity|]; repeat constructor; discriminate|]).
  destruct H.
Qed.

Section WithExternals.

Variable E : Externals.

Lemma extFromUrlOrDisposition_shaped urlStr cd e :
  extFromUrlOrDisposition E urlStr cd = Some e -> ext_shaped e.
Proof.
  assert (Hurl : extFromUrl E urlStr = Some e -> ext_shaped e).
  { unfold extFromUrl. destruct (url_pathname E urlStr) as [pathname|]; [|discriminate].
    destruct (truthy (extname _)) eqn:Ht; [|discriminate].
    intros [= <-]. apply lowered_extname_shaped, Ht. }
  unfold extFromUrlOrDisposition.
  destruct (disposition_filename E cd) as [m1|]; [|exact Hurl].
  destruct (decodeURIComponent E _) as [n|]; [|discriminate].
  destruct (truthy (extname n)) eqn:Ht; [|exact Hurl].
  intros [= <-]. apply lowered_extname_shaped, Ht.
Qed.


Lemma resolved_ext_shaped urlStr res :
  resolved_ext E urlStr res = [] \/ ext_shaped (resolved_ext E urlStr res).
Proof.
  unfold resolved_ext.
  destruct (extFromUrlOrDisposition E urlStr _) as [e|] eqn:Hu.
  - right. destruct (extFromUrlOrDisposition_shaped _ _ _ Hu) as (He & Hl & Hs).
    cbn [from_option]. unfold id. rewrite Hl. split; [exact He|]. split; assumption.
  - destruct (guessExtFromContentType _) as [e|] eqn:Hc; [|left; reflexivity].
    right. destruct (table_ext_shaped _ _ Hc) as (He & Hl & Hs).
    cbn [from_option]. unfold id. rewrite Hl. split; [exact He|]. split; assumption.
Qed.

Lemma sanitize_from_safe b s :
  Forall (fun c => is_safe c = true) (sanitize_from b s).
Proof.
  revert b. induction s as [|c s IH]; intros b; [constructor|].
  simpl. destruct (is_safe c) eqn:Hc; [constructor; auto|].
  destruct b; [apply IH|]. constructor; [reflexivity | apply IH].
Qed.

Lemma endsWith_app s ext : endsWith (s ++ ext) ext = true.
Proof.
  unfold endsWith. rewrite length_app.
  replace (length s + length ext - length ext)%nat with (length s) by lia.
  rewrite drop_app_length. apply andb_true_iff.
  split; [apply Nat.leb_le; lia | apply seq_true; reflexivity].
Qed.

Lemma endsWith_nil s : endsWith s [] = true.
Proof.
  unfold endsWith. cbn [length]. rewrite Nat.sub_0_r, drop_all. reflexivity.
Qed.

Lemma safe_not_slash c : is_safe c = true -> c <> 47%N.
Proof. intros H ->. discriminate. Qed.

(** The name that a download gets is never empty and holds no slash, so the
    temp file lies in the scratch directory itself; it is a name made of
    letters, digits, underscores, dots and dashes, followed by the resolved
    extension unless it ends in it already. *)
Theorem download_name_shape urlStr res filename :
  resolved_filename E urlStr res = Ok filename ->
  filename <> []
  /\ Forall (fun c => c <> 47%N) filename
  /\ endsWith filename (resolved_ext E urlStr res) = true
  /\ exists safeBase,
       Forall (fun c => is_safe c = true) safeBase
       /\ (filename = safeBase \/ filename = safeBase ++ resolved_ext E urlStr res).
Proof.
  assert (Hnamed : forall baseName,
    match decodeURIComponent E baseName with
    | Some decoded =>
        Ok (if truthy (resolved_ext E urlStr res)
            then if endsWith (or_else (sanitize decoded) (lit "download"))
                             (resolved_ext E urlStr res)
                 then or_else (sanitize decoded) (lit "download")
                 else or_else (sanitize decoded) (lit "download")
                      ++ resolved_ext E urlStr res
            else or_else (sanitize decoded) (lit "download"))
    | None => Throw (Error (lit "URI malformed"))
    end = Ok filename ->
    filename <> []
    /\ Forall (fun c => c <> 47%N) filename
    /\ endsWith filename (resolved_ext E urlStr res) = true
    /\ exists safeBase,
         Forall (fun c => is_safe c = true) safeBase
         /\ (filename = safeBase \/ filename = safeBase ++ resolved_ext E urlStr res)).
  { intros baseName. destruct (decodeURIComponent E baseName) as [decoded|]; [|discriminate].
    set (safeBase := or_else (sanitize decoded) (lit "download")).
    assert (Hsafe : Forall (fun c => is_safe c = true) safeBase).
    { unfold safeBase, or_else. destruct (truthy (sanitize decoded)).
      - apply sanitize_from_safe.
      - repeat constructor. }
    assert (Hne : safeBase <> []).
    { unfold safeBase, or_else. destruct (sanitize decoded); [discriminate|].
      cbn. discriminate. }
    assert (Hslash : Forall (fun c => c <> 47%N) safeBase).
    { eapply Forall_impl; [exact Hsafe|]. apply safe_not_slash. }
    destruct (truthy (resolved_ext E urlStr res)) eqn:Hext.
    - destruct (endsWith safeBase (resolved_ext E urlStr res)) eqn:Hends;
        intros [= <-].
      + split; [exact Hne|]. split; [exact Hslash|]. split; [exact Hends|].
        exists safeBase. auto.
      + split; [destruct safeBase; [congruence | discriminate]|].
        split.
        { apply Forall_app. split; [exact Hslash|].
          destruct (resolved_ext_shaped urlStr res) as [H|(_ & _ & H)];
            [rewrite H; constructor | exact H]. }
        split; [apply endsWith_app|]. exists safeBase. auto.
    - intros [= <-]. split; [exact Hne|]. split; [exact Hslash|].
      destruct (resolved_ext E urlStr res); [|discriminate].
      split; [apply endsWith_nil|]. exists safeBase. auto. }
  unfold resolved_filename.
  destruct (disposition_filename E _) as [m1|]; [apply Hnamed|].
  destruct (url_pathname E urlStr) as [pathname|]; [apply Hnamed | discriminate].
Qed.

End WithExternals.


Lemma download_name_shape_witness :
  Forall (fun c => c <> 47%N) (lit "my_file.txt").
Proof.
  exact (proj1 (proj2 (download_name_shape
    (Stub.serving (Some (lit "text/plain")) [])
    (lit "https://h.example/my file")
    {| res_ok := true; res_status := 200;
       res_content_type := Some (lit "text/plain");
       res_content_disposition := None;
       res_body := Some [] |}
    (lit "my_file.txt") ltac:(vm_compute; reflexivity)))).
Defined.

(** *** The HTML shell *)

Lemma has_html_tag_app a b : has_html_tag b = true -> has_html_tag (a ++ b) = true.
Proof.
  intros H. induction a as [|c a IH]; [exact H|].
  change ((c :: a) ++ b) with (c :: (a ++ b)).
  cbn [has_html_tag]. rewrite IH. apply orb_true_r.
Qed.

(** The document handed to the renderer always has an [<html>] tag; a
    document that has one is handed over as it is, so that wrapping twice is
    wrapping once. *)
Theorem normalizeHtmlWrapper_idempotent html :
  has_html_tag (normalizeHtmlWrapper html) = true
  /\ normalizeHtmlWrapper (normalizeHtmlWrapper html) = normalizeHtmlWrapper html
  /\ (has_html_tag html = true -> normalizeHtmlWrapper html = html).
Proof.
  assert (Htag : has_html_tag (normalizeHtmlWrapper html) = true).
  { unfold normalizeHtmlWrapper. destruct (has_html_tag html) eqn:H; [exact H|].
    change (lit "<!doctype html><html><head>")
      with (lit "<!doctype html>" ++ lit "<html><head>").
    rewrite <- !app_assoc. apply has_html_tag_app. reflexivity. }
  split; [exact Htag|]. split.
  - unfold normalizeHtmlWrapper at 1. rewrite Htag. reflexivity.
  - intros H. unfold normalizeHtmlWrapper. rewrite H. reflexivity.
Qed.

Lemma normalizeHtmlWrapper_idempotent_witness :
  normalizeHtmlWrapper (lit "<HTML lang=en><body>x</body></HTML>")
  = lit "<HTML lang=en><body>x</body></HTML>".
Proof.
  exact (proj2 (proj2 (normalizeHtmlWrapper_idempotent
                         (lit "<HTML lang=en><body>x</body></HTML>"))) eq_refl).
Defined.

End NameExtras.

(** ** More on the adapters and the upload routes *)
Module UploadExtras.
Import Js Service Views JsFacts ServiceFacts.

Section WithExternals.

Variable E : Externals.

(** *** The adapters, exactly *)

Lemma htmlToPdfWithWK_toPath_exact html base w :
  match rendered E html with
  | Some pdf =>
      exists pdfPath w',
        htmlToPdfWithWK_toPath E html base w = (Ok pdfPath, w')
        /\ scratch w' !! pdfPath = Some pdf
        /\ trace w' = trace w ++ [Spawn (lit "wkhtmltopdf")]
  | None =>
      exists w',
        htmlToPdfWithWK_toPath E html base w
        = (Throw (tool_failure (lit "wkhtmltopdf")
                               (wkhtmltopdf E (utf8_encode E html)) true), w')
        /\ trace w' = trace w ++ [Spawn (lit "wkhtmltopdf")]
  end.
Proof.
  unfold htmlToPdfWithWK_toPath, rendered, bind, fresh, write_file, log, read_file.
  cbn [scratch drawn_names trace]. rewrite lookup_insert_eq.
  destruct (exit_code (wkhtmltopdf E (utf8_encode E html)) =? 0)%Z; cbn [negb].
  - eexists _, _. split; [reflexivity|]. cbn [scratch trace].
    split; [apply lookup_insert_eq | reflexivity].
  - eexists. split; reflexivity.
Qed.

Lemma rtfToHtmlWithUnrtf_exact data w :
  exists w',
    trace w' = trace w ++ [Spawn (lit "unrtf")]
    /\ rtfToHtmlWithUnrtf E data w
       = (if (exit_code (unrtf E data) =? 0)%Z
          then Ok (tool_stdout (unrtf E data))
          else Throw (tool_failure (lit "unrtf") (unrtf E data) false),
          w').
Proof.
  unfold rtfToHtmlWithUnrtf, bind, fresh, write_file, log, read_file.
  cbn [scratch drawn_names trace]. rewrite lookup_insert_eq.
  destruct (exit_code (unrtf E data) =? 0)%Z; cbn [negb];
    (eexists; split; [|reflexivity]; reflexivity).
Qed.

(** *** What the routes do before they convert *)

Lemma readFormFile_found c form file w :
  req_form c = Some form ->
  form_get form (lit "file") = Some (FormFile file) ->
  readFormFile c (lit "file") w = (Ok file, w).
Proof.
  intros Hform Hfile. unfold readFormFile, formData, bind. rewrite Hform.
  unfold ret. rewrite Hfile. reflexivity.
Qed.

Lemma readFormFile_missing c form w :
  req_form c = Some form ->
  (forall file, form_get form (lit "file") <> Some (FormFile file)) ->
  readFormFile c (lit "file") w
  = (Throw (HTTPException 400
       (lit "Expected multipart/form-data with a 'file' file field.")), w).
Proof.
  intros Hform Hfile. unfold readFormFile, formData, bind. rewrite Hform.
  unfold ret. destruct (form_get form (lit "file")) as [[s|file]|];
    [reflexivity | exfalso; exact (Hfile file eq_refl) | reflexivity].
Qed.

Lemma enforceFileLimit_within file w :
  (f_size file <= MAX_FILE_BYTES)%Z -> enforceFileLimit file w = (Ok tt, w).
Proof.
  intros H. unfold enforceFileLimit.
  destruct (MAX_FILE_BYTES <? f_size file)%Z eqn:Hlt; [|reflexivity].
  apply Z.ltb_lt in Hlt. lia.
Qed.

(** A route that takes a file answers 400 when the form has no file under
    [file] (no such field, or a text field), and the HTML route does so when
    the form has no text under [html] either; nothing has run then. *)
Theorem missing_file_rejected c form w :
  req_form c = Some form ->
  (forall file, form_get form (lit "file") <> Some (FormFile file)) ->
  Forall (fun handler : request -> M response =>
            handler c w
            = (Throw (HTTPException 400
                 (lit "Expected multipart/form-data with a 'file' file field.")), w))
         [convert_txt E; convert_rtf E; convert_docx E; convert_zip E]
  /\ ((forall html, form_get form (lit "html") <> Some (FormString html)) ->
      convert_html E c w
      = (Throw (HTTPException 400
           (lit "Provide either file=*.html or a text field " ++ [dq] ++ lit "html"
            ++ [dq] ++ lit ".")), w)).
Proof.
  intros Hform Hfile.
  pose proof (readFormFile_missing c form w Hform Hfile) as Hread.
  split.
  - repeat (apply List.Forall_cons; [apply bind_throw, Hread|]). apply List.Forall_nil.
  - intros Hhtml. unfold convert_html.
    erewrite (bind_ok (formData c)) by (unfold formData; rewrite Hform; reflexivity).
    apply bind_throw. unfold html_source.
    destruct (form_get form (lit "file")) as [[s|file]|];
      [|exfalso; exact (Hfile file eq_refl)|];
      (destruct (form_get form (lit "html")) as [[html|f]|];
       [exfalso; exact (Hhtml html eq_refl) | reflexivity | reflexivity]).
Qed.

(** A named upload within the limit whose name does not end in what the
    route expects is answered 400 before anything runs. *)
Theorem wrong_extension_rejected c form file w :
  req_form c = Some form ->
  form_get form (lit "file") = Some (FormFile file) ->
  (f_size file <= MAX_FILE_BYTES)%Z ->
  f_name file <> [] ->
  (test_suffix_ci (lit ".txt") (f_name file) = false ->
   convert_txt E c w
   = (Throw (HTTPException 400 (lit "Please upload a .txt file.")), w))
  /\ (test_suffix_ci (lit ".rtf") (f_name file) = false ->
      convert_rtf E c w
      = (Throw (HTTPException 400 (lit "Please upload a .rtf file.")), w))
  /\ (test_suffix_ci (lit ".docx") (f_name file) = false ->
      convert_docx E c w
      = (Throw (HTTPException 400 (lit "Please upload a .docx file.")), w))
  /\ (test_suffix_ci (lit ".zip") (f_name file) = false ->
      convert_zip E c w
      = (Throw (HTTPException 400 (lit "Please upload a .zip file.")), w))
  /\ (html_name (f_name file) = false ->
      convert_html E c w
      = (Throw (HTTPException 400
           (lit "Please upload a .html/.htm file or provide an " ++ [dq] ++ lit "html"
            ++ [dq] ++ lit " field.")), w)).
Proof.
  intros Hform Hfile Hsize Hname.
  pose proof (readFormFile_found c form file w Hform Hfile) as Hread.
  pose proof (enforceFileLimit_within file w Hsize) as Hlimit.
  assert (Hor : forall d, or_else (f_name file) d = f_name file).
  { intros d. unfold or_else. destruct (f_name file); [congruence | reflexivity]. }
  repeat split; intros Htest.
  - unfold convert_txt. erewrite bind_ok by exact Hread.
    erewrite bind_ok by exact Hlimit. rewrite Hor, Htest. reflexivity.
  - unfold convert_rtf. erewrite bind_ok by exact Hread.
    erewrite bind_ok by exact Hlimit. rewrite Hor, Htest. reflexivity.
  - unfold convert_docx. erewrite bind_ok by exact Hread.
    erewrite bind_ok by exact Hlimit. rewrite Hor, Htest. reflexivity.
  - unfold convert_zip. erewrite bind_ok by exact Hread.
    erewrite bind_ok by exact Hlimit. rewrite Hor, Htest. reflexivity.
  - unfold convert_html.
    erewrite (bind_ok (formData c)) by (unfold formData; rewrite Hform; reflexivity).
    apply bind_throw. unfold html_source. rewrite Hfile.
    erewrite bind_ok by exact Hlimit. rewrite Hor, Htest. reflexivity.
Qed.


(** The answer to a failed tool: 500, with the name of the tool, its exit
    code and what it wrote. *)
Lemma tool_failure_answer tool r with_stdout :
  tool <> [] ->
  onError (tool_failure tool r with_stdout)
  = {| status := 500; headers := [];
       resp_body := JsonError
         (tool ++ lit " failed (" ++ show (exit_code r) ++ lit ")" ++ [nl]
          ++ (if with_stdout then lit "STDOUT:" ++ [nl] ++ tool_stdout r ++ [nl] else [])
          ++ lit "STDERR:" ++ [nl] ++ tool_stderr r) |}.
Proof.
  intros H. unfold onError, tool_failure. destruct tool; [congruence | reflexivity].
Qed.

(** When unrtf exits with another code than 0, the RTF route answers 500
    with that code and the standard error of the tool, and the renderer is
    never started. *)
Theorem rtf_failure_reported c form file w :
  req_form c = Some form ->
  form_get form (lit "file") = Some (FormFile file) ->
  (f_size file <= MAX_FILE_BYTES)%Z ->
  test_suffix_ci (lit ".rtf") (or_else (f_name file) (lit "document.rtf")) = true ->
  exit_code (unrtf E (f_bytes file)) <> 0%Z ->
  exists w',
    serve (convert_rtf E) c w
    = ({| status := 500; headers := [];
          resp_body := JsonError
            (lit "unrtf failed (" ++ show (exit_code (unrtf E (f_bytes file))) ++ lit ")"
             ++ [nl] ++ lit "STDERR:" ++ [nl] ++ tool_stderr (unrtf E (f_bytes file))) |},
       w')
    /\ trace w' = trace w ++ [Spawn (lit "unrtf")].
Proof.
  intros Hform Hfile Hsize Htest Hcode.
  destruct (rtfToHtmlWithUnrtf_exact (f_bytes file) w) as (w' & Htrace & Hrun).
  apply Z.eqb_neq in Hcode. rewrite Hcode in Hrun.
  exists w'. split; [|exact Htrace].
  unfold serve, convert_rtf.
  erewrite bind_ok by exact (readFormFile_found c form file w Hform Hfile).
  erewrite bind_ok by exact (enforceFileLimit_within file w Hsize).
  rewrite Htest. cbn [negb].
  erewrite bind_throw by exact Hrun. reflexivity.
Qed.

(** *** The text field of the HTML route *)

Lemma html_source_field form html w :
  (forall file, form_get form (lit "file") <> Some (FormFile file)) ->
  form_get form (lit "html") = Some (FormString html) ->
  html_source E form w
  = (enforceStringLimit E (lit "HTML content") html;; ret html) w.
Proof.
  intros Hfile Hhtml. unfold html_source. rewrite Hhtml.
  destruct (form_get form (lit "file")) as [[s|file]|];
    [reflexivity | exfalso; exact (Hfile file eq_refl) | reflexivity].
Qed.

(** A text field whose UTF-8 encoding is longer than 50 MiB is answered
    413 before the renderer is started. *)
Theorem oversized_html_field_rejected c form html w :
  req_form c = Some form ->
  (forall file, form_get form (lit "file") <> Some (FormFile file)) ->
  form_get form (lit "html") = Some (FormString html) ->
  (50 * 1024 * 1024 < Z.of_nat (length (utf8_encode E html)))%Z ->
  convert_html E c w
  = (Throw (HTTPException 413 (lit "HTML content too large. Max size is 50MB.")), w).
Proof.
  intros Hform Hfile Hhtml Hsize. unfold convert_html.
  erewrite (bind_ok (formData c)) by (unfold formData; rewrite Hform; reflexivity).
  apply bind_throw. rewrite (html_source_field form html w Hfile Hhtml).
  apply bind_throw. unfold enforceStringLimit.
  replace (MAX_FILE_BYTES <? _)%Z with true
    by (symmetry; apply Z.ltb_lt; exact Hsize).
  reflexivity.
Qed.

(** A text field within the limit is wrapped and rendered: the answer is
    the PDF that wkhtmltopdf made of the wrapped document, or, when
    wkhtmltopdf exits with another code than 0, a 500 with that code, its
    standard output and its standard error. *)
Theorem html_field_rendered c form html w :
  req_form c = Some form ->
  (forall file, form_get form (lit "file") <> Some (FormFile file)) ->
  form_get form (lit "html") = Some (FormString html) ->
  (Z.of_nat (length (utf8_encode E html)) <= MAX_FILE_BYTES)%Z ->
  let run := wkhtmltopdf E (utf8_encode E (normalizeHtmlWrapper html)) in
  exists w',
    trace w' = trace w ++ [Spawn (lit "wkhtmltopdf")]
    /\ serve (convert_html E) c w
       = (if (exit_code run =? 0)%Z
          then {| status := 200;
                  headers := stream_headers (lit "document.pdf") (lit "application/pdf")
                                            (tool_output run);
                  resp_body := FileBody (tool_output run) |}
          else {| status := 500; headers := [];
                  resp_body := JsonError
                    (lit "wkhtmltopdf failed (" ++ show (exit_code run) ++ lit ")" ++ [nl]
                     ++ (lit "STDOUT:" ++ [nl] ++ tool_stdout run ++ [nl])
                     ++ lit "STDERR:" ++ [nl] ++ tool_stderr run) |},
          w').
Proof.
  intros Hform Hfile Hhtml Hsize run.
  assert (Hsrc : html_source E form w = (Ok html, w)).
  { rewrite (html_source_field form html w Hfile Hhtml).
    unfold bind, enforceStringLimit.
    destruct (MAX_FILE_BYTES <? _)%Z eqn:Hlt; [apply Z.ltb_lt in Hlt; lia|].
    reflexivity. }
  pose proof (htmlToPdfWithWK_toPath_exact (normalizeHtmlWrapper html)
                (lit "html-upload") w) as Hwk.
  unfold rendered in Hwk. fold run in Hwk.
  unfold serve, convert_html.
  erewrite (bind_ok (formData c)) by (unfold formData; rewrite Hform; reflexivity).
  erewrite bind_ok by exact Hsrc.
  destruct (exit_code run =? 0)%Z.
  - destruct Hwk as (pdfPath & w' & Hrun & Hpdf & Htrace).
    exists w'. split; [exact Htrace|].
    erewrite bind_ok by exact Hrun.
    unfold streamFile. erewrite bind_ok by exact (read_file_found _ _ _ Hpdf).
    reflexivity.
  - destruct Hwk as (w' & Hrun & Htrace).
    exists w'. split; [exact Htrace|].
    erewrite bind_throw by exact Hrun. reflexivity.
Qed.

End WithExternals.

Lemma missing_file_rejected_witness :
  convert_zip Stub.offline
    {| req_content_type := Some (lit "multipart/form-data; boundary=x");
       req_form := Some [(lit "file", FormString (lit "not a file"))];
       req_json_url := None |} Stub.empty_world
  = (Throw (HTTPException 400
       (lit "Expected multipart/form-data with a 'file' file field.")), Stub.empty_world).
Proof.
  pose proof (proj1 (missing_file_rejected Stub.offline
    {| req_content_type := Some (lit "multipart/form-data; boundary=x");
       req_form := Some [(lit "file", FormString (lit "not a file"))];
       req_json_url := None |} _ Stub.empty_world eq_refl
    ltac:(intros file; discriminate))) as H.
  apply Forall_inv_tail, Forall_inv_tail, Forall_inv_tail, Forall_inv in H.
  exact H.
Defined.

Lemma wrong_extension_rejected_witness :
  convert_txt Stub.offline (Stub.upload (lit "photo.png") 3 [x89; x50; x4e]%byte)
              Stub.empty_world
  = (Throw (HTTPException 400 (lit "Please upload a .txt file.")), Stub.empty_world).
Proof.
  apply (wrong_extension_rejected Stub.offline
           (Stub.upload (lit "photo.png") 3 [x89; x50; x4e]%byte) _ _ Stub.empty_world
           eq_refl eq_refl).
  - vm_compute. discriminate.
  - discriminate.
  - reflexivity.
Defined.


Lemma rtf_failure_reported_witness :
  status (fst (serve (convert_rtf Faulty.externals)
                     (Stub.upload (lit "memo.rtf") 2 [x7b; x7d]%byte)
                     Stub.empty_world)) = 500%Z.
Proof.
  destruct (rtf_failure_reported Faulty.externals
              (Stub.upload (lit "memo.rtf") 2 [x7b; x7d]%byte) _ _ Stub.empty_world
              eq_refl eq_refl) as (w' & Hserve & _).
  - vm_compute. discriminate.
  - reflexivity.
  - discriminate.
  - rewrite Hserve. reflexivity.
Defined.

Lemma oversized_html_field_rejected_witness :
  let html := replicate (Z.to_nat (50 * 1024 * 1024 + 1)) 120%N in
  let c := {| req_content_type := Some (lit "multipart/form-data; boundary=x");
              req_form := Some [(lit "html", FormString html)];
              req_json_url := None |} in
  convert_html Stub.offline c Stub.empty_world
  = (Throw (HTTPException 413 (lit "HTML content too large. Max size is 50MB.")),
     Stub.empty_world).
Proof.
  intros html c.
  apply (oversized_html_field_rejected Stub.offline c
           [(lit "html", FormString html)] html Stub.empty_world eq_refl).
  - intros file. discriminate.
  - reflexivity.
  - change (utf8_encode Stub.offline html) with (Stub.encode html).
    unfold Stub.encode, html. rewrite length_map, length_replicate.
    rewrite Z2Nat.id by lia. lia.
Defined.

Lemma html_field_rendered_witness :
  let c := {| req_content_type := Some (lit "multipart/form-data; boundary=x");
              req_form := Some [(lit "html", FormString (lit "<p>hi</p>"))];
              req_json_url := None |} in
  status (fst (serve (convert_html Stub.offline) c Stub.empty_world)) = 200%Z
  /\ status (fst (serve (convert_html Faulty.externals) c Stub.empty_world)) = 500%Z.
Proof.
  intros c. split.
  - destruct (html_field_rendered Stub.offline c
                [(lit "html", FormString (lit "<p>hi</p>"))] (lit "<p>hi</p>")
                Stub.empty_world eq_refl) as (w' & _ & Hserve).
    + intros file. discriminate.
    + reflexivity.
    + vm_compute. discriminate.
    + rewrite Hserve. reflexivity.
  - destruct (html_field_rendered Faulty.externals c
                [(lit "html", FormString (lit "<p>hi</p>"))] (lit "<p>hi</p>")
                Stub.empty_world eq_refl) as (w' & _ & Hserve).
    + intros file. discriminate.
    + reflexivity.
    + vm_compute. discriminate.
    + rewrite Hserve. reflexivity.
Defined.

End UploadExtras.

(** ** More on the download and the URL route *)
Module UrlExtras.
Import Js Service Views JsFacts ServiceFacts UploadExtras.

Section WithExternals.

Variable E : Externals.

(** *** The download *)



(** With a response that is fine, the download returns exactly when the body
    has at most [maxBytes] bytes (a body of exactly that size is accepted),
    and the file then holds the chunks of the body, all of them and in their
    order. *)
Theorem download_succeeds_within_ceiling urlStr maxBytes w res filename chunks :
  fetch E urlStr = Ok res ->
  res_ok res = true ->
  resolved_filename E urlStr res = Ok filename ->
  res_body res = Some chunks ->
  (0 <= maxBytes)%Z ->
  (total_bytes chunks <= maxBytes)%Z
  <-> exists w',
        downloadUrlToTemp E urlStr maxBytes w
        = (Ok (download_path E filename w, filename, res_content_type res), w')
        /\ scratch w' !! download_path E filename w = Some (concat chunks).
Proof.
  intros Hfetch Hok Hname Hbody H0. split.
  - intros Hle. eexists. split.
    + apply (downloadUrlToTemp_within E urlStr maxBytes w res filename chunks);
        assumption.
    + cbn [scratch]. apply lookup_insert_eq.
  - intros (w' & Hrun & _).
    destruct (Z_le_gt_dec (total_bytes chunks) maxBytes) as [Hle|Hgt]; [exact Hle|].
    destruct (downloadUrlToTemp_beyond E urlStr maxBytes w res filename chunks
                Hfetch Hok Hname Hbody) as (pre & v & post & _ & _ & Hthrow); [lia|].
    rewrite Hthrow in Hrun. discriminate.
Qed.

(** *** The route *)

(** A URL that does not start with [http://] or [https://], whatever the
    case, is answered 400 and never fetched. *)
Theorem url_scheme_rejected c urlStr w :
  carries_url c urlStr ->
  is_http_url urlStr = false ->
  convert_url E c w
  = (Throw (HTTPException 400 (lit "Only http(s) URLs are supported.")), w).
Proof.
  intros Hurl Hhttp. unfold convert_url.
  erewrite bind_ok by exact (Hurl w). rewrite Hhttp. reflexivity.
Qed.

(** When the remote server answers with a status outside 200..299, the
    route answers 502 with that status: nothing is written and nothing is
    converted. *)
Theorem url_remote_failure_reported c urlStr w res :
  carries_url c urlStr ->
  is_http_url urlStr = true ->
  fetch E urlStr = Ok res ->
  res_ok res = false ->
  serve (convert_url E) c w
  = ({| status := 502; headers := [];
        resp_body := JsonError
          (lit "Failed to fetch URL (status " ++ show (res_status res) ++ lit ").") |},
     World (scratch w) (drawn_names w) (trace w ++ [Fetch urlStr])).
Proof.
  intros Hurl Hhttp Hfetch Hok. unfold serve, convert_url.
  erewrite bind_ok by exact (Hurl w). rewrite Hhttp. cbn [negb].
  unfold downloadUrlToTemp, bind, log, lift. rewrite Hfetch, Hok. reflexivity.
Qed.

(** A download whose name has none of the extensions .pdf, .txt, .docx,
    .rtf, .html, .htm and whose Content-Type is not in the table is answered
    415: nothing is converted, and the download stays in the scratch
    directory. *)
Theorem url_unknown_type_rejected c urlStr w res filename chunks :
  carries_url c urlStr ->
  is_http_url urlStr = true ->
  fetch E urlStr = Ok res ->
  res_ok res = true ->
  resolved_filename E urlStr res = Ok filename ->
  res_body res = Some chunks ->
  (total_bytes chunks <= MAX_FILE_BYTES)%Z ->
  ~ In (toLowerCase (extname filename))
       [lit ".pdf"; lit ".txt"; lit ".docx"; lit ".rtf"; lit ".html"; lit ".htm"] ->
  guessExtFromContentType (res_content_type res) = None ->
  serve (convert_url E) c w
  = ({| status := 415; headers := [];
        resp_body := JsonError
          (lit "Unsupported remote type. Allowed: pdf, docx, txt, rtf, html, zip.") |},
     World (<[download_path E filename w := concat chunks]> (scratch w))
           (S (drawn_names w)) (trace w ++ [Fetch urlStr])).
Proof.
  intros Hurl Hhttp Hfetch Hok Hname Hbody Hle Hext Hct. unfold serve.
  rewrite (convert_url_downloaded E c urlStr w _ _ Hurl Hhttp
             (downloadUrlToTemp_within E urlStr _ w res filename chunks
                Hfetch Hok Hname Hbody Hle)).
  cbn [fst snd]. unfold url_dispatch. rewrite or_else_nil, !ct_says_guess, Hct.
  assert (Hno : forall e,
             In e [lit ".pdf"; lit ".txt"; lit ".docx"; lit ".rtf"; lit ".html"; lit ".htm"] ->
             seq (toLowerCase (extname filename)) e = false).
  { intros e He. apply seq_false. intros Heq. apply Hext. rewrite Heq. exact He. }
  rewrite !Hno by (simpl; tauto). reflexivity.
Qed.

(** When the Content-Type is not in the table, a download named [.html] or
    [.htm] is wrapped and rendered: the answer is the PDF that wkhtmltopdf
    made of it, named after the download, or a 500 with the exit code of
    wkhtmltopdf. *)
Theorem url_html_by_extension c urlStr w res filename chunks :
  carries_url c urlStr ->
  is_http_url urlStr = true ->
  fetch E urlStr = Ok res ->
  res_ok res = true ->
  resolved_filename E urlStr res = Ok filename ->
  res_body res = Some chunks ->
  (total_bytes chunks <= MAX_FILE_BYTES)%Z ->
  toLowerCase (extname filename) = lit ".html"
  \/ toLowerCase (extname filename) = lit ".htm" ->
  guessExtFromContentType (res_content_type res) = None ->
  let run := wkhtmltopdf E (utf8_encode E
               (normalizeHtmlWrapper (utf8_decode E (concat chunks)))) in
  let attachment :=
    basename_ext E filename (toLowerCase (extname filename)) ++ lit ".pdf" in
  exists w',
    trace w' = trace w ++ [Fetch urlStr; Spawn (lit "wkhtmltopdf")]
    /\ serve (convert_url E) c w
       = (if (exit_code run =? 0)%Z
          then {| status := 200;
                  headers := stream_headers attachment (lit "application/pdf")
                                            (tool_output run);
                  resp_body := FileBody (tool_output run) |}
          else onError (tool_failure (lit "wkhtmltopdf") run true),
          w').
Proof.
  intros Hurl Hhttp Hfetch Hok Hname Hbody Hle Hext Hct run attachment. unfold serve.
  rewrite (convert_url_downloaded E c urlStr w _ _ Hurl Hhttp
             (downloadUrlToTemp_within E urlStr _ w res filename chunks
                Hfetch Hok Hname Hbody Hle)).
  cbn [fst snd]. unfold url_dispatch. rewrite or_else_nil, !ct_says_guess, Hct.
  assert (Hor : or_else (toLowerCase (extname filename)) (lit ".html")
                = toLowerCase (extname filename)).
  { destruct Hext as [-> | ->]; reflexivity. }
  rewrite Hor. fold attachment.
  assert (Hbranch :
    (seq (toLowerCase (extname filename)) (lit ".pdf"), 
     seq (toLowerCase (extname filename)) (lit ".txt"),
     seq (toLowerCase (extname filename)) (lit ".docx"),
     seq (toLowerCase (extname filename)) (lit ".rtf"),
     seq (toLowerCase (extname filename)) (lit ".html")
     || seq (toLowerCase (extname filename)) (lit ".htm"))
    = (false, false, false, false, true)).
  { destruct Hext as [-> | ->]; reflexivity. }
  injection Hbranch as -> -> -> -> Hhtml.
  cbn [orb bool_decide]. 
  replace (bool_decide (None = Some (lit ".pdf"))) with false by reflexivity.
  replace (bool_decide (None = Some (lit ".txt"))) with false by reflexivity.
  replace (bool_decide (None = Some (lit ".docx"))) with false by reflexivity.
  replace (bool_decide (None = Some (lit ".rtf"))) with false by reflexivity.
  replace (bool_decide (None = Some (lit ".html"))) with false by reflexivity.
  rewrite orb_false_r, Hhtml.
  unfold bind at 1. unfold read_file at 1. cbn [scratch]. rewrite lookup_insert_eq.
  match goal with
  | |- context [htmlToPdfWithWK_toPath E ?h ?b] =>
      pose proof (htmlToPdfWithWK_toPath_exact E h b
        (World (<[download_path E filename w := concat chunks]> (scratch w))
               (S (drawn_names w)) (trace w ++ [Fetch urlStr]))) as Hwk
  end.
  unfold rendered in Hwk. fold run in Hwk. cbn [trace] in Hwk.
  destruct (exit_code run =? 0)%Z.
  - destruct Hwk as (pdfPath & w' & Hrun & Hpdf & Htrace).
    exists w'. split; [rewrite Htrace, <- app_assoc; reflexivity|].
    erewrite bind_ok by exact Hrun.
    unfold streamFile. erewrite bind_ok by exact (read_file_found _ _ _ Hpdf).
    reflexivity.
  - destruct Hwk as (w' & Hrun & Htrace).
    exists w'. split; [rewrite Htrace, <- app_assoc; reflexivity|].
    erewrite bind_throw by exact Hrun. reflexivity.
Qed.

End WithExternals.


Lemma download_succeeds_within_ceiling_witness :
  exists w',
    downloadUrlToTemp (Stub.serving None [[x68]%byte; [x69; x21]%byte])
                      (lit "https://h.example/a.txt") 3 Stub.empty_world
    = (Ok (lit "/tmp/0-a.txt", lit "a.txt", None), w')
    /\ scratch w' !! lit "/tmp/0-a.txt" = Some [x68; x69; x21]%byte.
Proof.
  apply (download_succeeds_within_ceiling
           (Stub.serving None [[x68]%byte; [x69; x21]%byte])
           (lit "https://h.example/a.txt") 3 Stub.empty_world
           {| res_ok := true; res_status := 200; res_content_type := None;
              res_content_disposition := None;
              res_body := Some [[x68]%byte; [x69; x21]%byte] |}
           (lit "a.txt") [[x68]%byte; [x69; x21]%byte]).
  - reflexivity.
  - reflexivity.
  - vm_compute. reflexivity.
  - reflexivity.
  - lia.
  - vm_compute. discriminate.
Defined.

Lemma url_scheme_rejected_witness :
  convert_url Stub.offline (Stub.url_request (lit "file:///etc/passwd")) Stub.empty_world
  = (Throw (HTTPException 400 (lit "Only http(s) URLs are supported.")), Stub.empty_world).
Proof.
  apply (url_scheme_rejected Stub.offline _ (lit "file:///etc/passwd")).
  - intros w. reflexivity.
  - reflexivity.
Defined.

Lemma url_unknown_type_rejected_witness :
  status (fst (serve (convert_url (Stub.serving (Some (lit "image/png")) [[x89]%byte]))
                     (Stub.url_request (lit "https://h.example/logo.png"))
                     Stub.empty_world)) = 415%Z.
Proof.
  rewrite (url_unknown_type_rejected (Stub.serving (Some (lit "image/png")) [[x89]%byte])
             (Stub.url_request (lit "https://h.example/logo.png"))
             (lit "https://h.example/logo.png") Stub.empty_world
             {| res_ok := true; res_status := 200;
                res_content_type := Some (lit "image/png");
                res_content_disposition := None;
                res_body := Some [[x89]%byte] |}
             (lit "logo.png") [[x89]%byte]).
  - reflexivity.
  - intros w. reflexivity.
  - reflexivity.
  - reflexivity.
  - reflexivity.
  - vm_compute. reflexivity.
  - reflexivity.
  - vm_compute. discriminate.
  - vm_compute. intros H. repeat (destruct H as [H|H]; [discriminate|]). exact H.
  - reflexivity.
Defined.

Lemma url_html_by_extension_witness :
  status (fst (serve (convert_url (Stub.serving None [[x3c; x70; x3e]%byte]))
                     (Stub.url_request (lit "https://h.example/a.htm"))
                     Stub.empty_world)) = 200%Z.
Proof.
  destruct (url_html_by_extension (Stub.serving None [[x3c; x70; x3e]%byte])
             (Stub.url_request (lit "https://h.example/a.htm"))
             (lit "https://h.example/a.htm") Stub.empty_world
             {| res_ok := true; res_status := 200; res_content_type := None;
                res_content_disposition := None;
                res_body := Some [[x3c; x70; x3e]%byte] |}
             (lit "a.htm") [[x3c; x70; x3e]%byte]) as (w' & _ & Hserve).
  - intros w. reflexivity.
  - reflexivity.
  - reflexivity.
  - reflexivity.
  - vm_compute. reflexivity.
  - reflexivity.
  - vm_compute. discriminate.
  - right. vm_compute. reflexivity.
  - reflexivity.
  - rewrite Hserve. reflexivity.
Defined.

Lemma url_remote_failure_reported_witness :
  let E := Stub.externals (fun _ =>
             Ok {| res_ok := false; res_status := 404;
                   res_content_type := Some (lit "text/html");
                   res_content_disposition := None;
                   res_body := Some [] |}) in
  status (fst (serve (convert_url E) (Stub.url_request (lit "https://h.example/gone.pdf"))
                     Stub.empty_world)) = 502%Z.
Proof.
  intros E.
  rewrite (url_remote_failure_reported E _ (lit "https://h.example/gone.pdf")
             Stub.empty_world
             {| res_ok := false; res_status := 404;
                res_content_type := Some (lit "text/html");
                res_content_disposition := None;
                res_body := Some [] |}).
  - reflexivity.
  - intros w. reflexivity.
  - reflexivity.
  - reflexivity.
  - reflexivity.
Defined.

End UrlExtras.

(** ** More on the ZIP batch *)
Module BatchExtras.
Import Js Service Views JsFacts ServiceFacts UploadExtras.

Section WithExternals.

Variable E : Externals.









End WithExternals.




End BatchExtras.

(** ** Start-up check and health report *)
Module StartupExtras.
Import Js Service Startup.

Section Probes.

Variables WKHTMLTOPDF_PATH UNRTF_PATH : option jstring.
Variable spawn_version : jstring -> option tool_run.

Lemma probe_version_ok bin :
  probe_ok spawn_version bin = true <-> probe_version spawn_version bin <> None.
Proof.
  unfold probe_ok, probe_version.
  destruct (spawn_version bin) as [p|]; [|split; [discriminate | congruence]].
  destruct (exit_code p =? 0)%Z; split; congruence.
Qed.

(** The start-up check with its default options (called without argument)
    passes exactly when [GET /health] reports [ok]: both tools answer
    [--version] with exit code 0. *)
Theorem startup_passes_iff_healthy :
  assertStartupDependencies WKHTMLTOPDF_PATH UNRTF_PATH spawn_version None = Ok tt
  <-> ok (health WKHTMLTOPDF_PATH UNRTF_PATH spawn_version) = true.
Proof.
  unfold assertStartupDependencies, health, wanted. cbn [ok].
  destruct (hasWK _ _), (hasUnrtf _ _); vm_compute; split; congruence.
Qed.

(** In the health report a tool is present exactly when a version is given
    for it, and the report is [ok] exactly when both versions are given. *)
Theorem health_versions_match_presence :
  let report := health WKHTMLTOPDF_PATH UNRTF_PATH spawn_version in
  (present (dep_wkhtmltopdf report) = true <-> version (dep_wkhtmltopdf report) <> None)
  /\ (present (dep_unrtf report) = true <-> version (dep_unrtf report) <> None)
  /\ (ok report = true
      <-> version (dep_wkhtmltopdf report) <> None /\ version (dep_unrtf report) <> None).
Proof.
  intros report. unfold report, health. cbn [present version dep_wkhtmltopdf dep_unrtf ok].
  unfold hasWK, hasUnrtf, getWKVersion, getUnrtfVersion.
  pose proof (probe_version_ok (tool_bin WKHTMLTOPDF_PATH (lit "wkhtmltopdf"))) as Hwk.
  pose proof (probe_version_ok (tool_bin UNRTF_PATH (lit "unrtf"))) as Hun.
  split; [exact Hwk|]. split; [exact Hun|].
  rewrite andb_true_iff, Hwk, Hun. reflexivity.
Qed.

End Probes.

End StartupExtras.
